(** * lite-cron: the task pipeline of the scheduler, embedded in Rocq

    The development follows the Python sources:
    - [manage.py]            ([parse_cron], [cmd_list]),
    - [src/make_env.py]      ([generate_env]),
    - [src/make_cron.py]     ([generate_cron]),
    - [src/task_wrapper.py]  ([setup_task_env], [load_env_file], [main]),
    - [src/notify.py]        ([notify] and its two configuration checks).

    Python [str] values are kept as Rocq strings holding their UTF-8
    bytes.  Equality, concatenation, [startswith], [in] and the removal of
    a known prefix agree on code points and on UTF-8 bytes, because UTF-8
    is self-synchronising; whitespace is recognised on the encoded form. *)

From Stdlib Require Import ZArith Lia Ascii String.
From stdpp Require Import gmap strings list fin_maps pretty.


(** ** Python string primitives *)

Module PyStr.

(** The line feed, the double quote and the backslash. *)
Definition nl : string := String "010"%char "".
Definition dq : string := String "034"%char "".
Definition bs : string := String "092"%char "".

Definition byte_in (lo hi : N) (a : ascii) : bool :=
  (lo <=? N_of_ascii a)%N && (N_of_ascii a <=? hi)%N.

Definition byte_is (n : N) (a : ascii) : bool := (N_of_ascii a =? n)%N.

(** Width in bytes of the [str.isspace] character at the head of [s],
    [0] when [s] does not start with one.  The characters are U+0009 to
    U+000D, U+001C to U+0020, U+0085, U+00A0, U+1680, U+2000 to U+200A,
    U+2028, U+2029, U+202F, U+205F and U+3000. *)
Definition space_width (s : string) : nat :=
  match s with
  | String a rest =>
      if byte_in 9 13 a || byte_in 28 32 a then 1
      else match rest with
           | String b rest' =>
               if byte_is 194 a then
                 (if byte_is 133 b || byte_is 160 b then 2 else 0)
               else match rest' with
                    | String c _ =>
                        if byte_is 225 a then
                          (if byte_is 154 b && byte_is 128 c then 3 else 0)
                        else if byte_is 226 a then
                          (if byte_is 128 b
                              && (byte_in 128 138 c || byte_is 168 c
                                  || byte_is 169 c || byte_is 175 c)
                           then 3
                           else if byte_is 129 b && byte_is 159 c then 3
                           else 0)
                        else if byte_is 227 a then
                          (if byte_is 128 b && byte_is 128 c then 3 else 0)
                        else 0
                    | EmptyString => 0
                    end
           | EmptyString => 0
           end
  | EmptyString => 0
  end.

Definition flush (cur : option string) : list string :=
  match cur with Some w => [w] | None => [] end.

Definition push (cur : option string) (a : ascii) : option string :=
  Some (default "" cur +:+ String a "").

(** [skip] counts the bytes of a multi-byte space still to be passed. *)
Fixpoint split_go (s : string) (skip : nat) (cur : option string)
  : list string :=
  match s with
  | EmptyString => flush cur
  | String a rest =>
      match skip with
      | S k => split_go rest k cur
      | O =>
          match space_width s with
          | O => split_go rest 0 (push cur a)
          | S k => flush cur ++ split_go rest k None
          end
      end
  end.

(** [s.split()]: the maximal runs of non-space characters. *)
Definition split (s : string) : list string := split_go s 0 None.

(** [s.startswith(p)] *)
Definition startswith (p s : string) : bool := String.prefix p s.

(** [s[n:]] for a prefix of [n] bytes. *)
Fixpoint drop_bytes (n : nat) (s : string) : string :=
  match n, s with
  | O, _ => s
  | S k, String _ rest => drop_bytes k rest
  | S _, EmptyString => EmptyString
  end.

(** [needle in hay] *)
Fixpoint contains (needle hay : string) : bool :=
  String.prefix needle hay
  || match hay with
     | String _ rest => contains needle rest
     | EmptyString => false
     end.

(** [sep.join(l)] *)
Fixpoint join (sep : string) (l : list string) : string :=
  match l with
  | [] => ""
  | [x] => x
  | x :: rest => x +:+ sep +:+ join sep rest
  end.

(** [s * n] *)
Fixpoint repeat (s : string) (n : nat) : string :=
  match n with
  | O => ""
  | S k => s +:+ repeat s k
  end.

(** [bool(s)]: a string is true when it is not empty. *)
Definition truthy (s : string) : bool :=
  match s with EmptyString => false | _ => true end.

(** The concatenation of the chunks handed to successive [f.write]. *)
Definition concat (l : list string) : string := foldr String.append "" l.

End PyStr.

Abbreviation nl := PyStr.nl.
Abbreviation dq := PyStr.dq.
Abbreviation bs := PyStr.bs.

(** ** The configuration document

    [yaml.safe_load] gives nested dictionaries and lists.  The fields are
    typed as in the data model: strings for [name], [schedule], [script]
    and [description], a boolean for [enabled], string-to-string mappings
    (in document order) for [env] and [global_env].  A key that is absent
    from the document is [None], so that every [dict.get(key, default)]
    of the sources can be written out with its own default. *)

Record task := Task {
  t_name : option string;
  t_schedule : option string;
  t_script : option string;
  t_enabled : option bool;
  t_env : option (list (string * string));
  t_description : option string;
}.

Record config := Config {
  c_tasks : option (list task);
  c_global_env : option (list (string * string));
}.

(** ** manage.py *)

Module Manage.

Definition weekdays (d : string) : option string :=
  if String.eqb d "0" then Some "周日"
  else if String.eqb d "1" then Some "周一"
  else if String.eqb d "2" then Some "周二"
  else if String.eqb d "3" then Some "周三"
  else if String.eqb d "4" then Some "周四"
  else if String.eqb d "5" then Some "周五"
  else if String.eqb d "6" then Some "周六"
  else if String.eqb d "7" then Some "周日"
  else None.

Definition is_star (s : string) : bool := String.eqb s "*".

Definition parse_cron (cron_expr : string) : string :=
  match PyStr.split cron_expr with
  | [minute; hour; day; month; weekday] =>
      let desc : list string :=
        if is_star minute then ["每分钟"]
        else if PyStr.startswith "*/" minute
             then ["每" +:+ PyStr.drop_bytes 2 minute +:+ "分钟"]
        else [minute +:+ "分"] in
      let desc :=
        if is_star hour then
          (if PyStr.contains "每" (hd "" desc)
           then desc ++ ["每小时"] else desc)
        else if PyStr.startswith "*/" hour
             then desc ++ ["每" +:+ PyStr.drop_bytes 2 hour +:+ "小时"]
        else desc ++ [hour +:+ "时"] in
      let desc :=
        if negb (is_star day) || negb (is_star month)
           || negb (is_star weekday) then
          if is_star day && is_star month && is_star weekday then desc
          else if negb (is_star weekday) then
            match weekdays weekday with
            | Some w => desc ++ ["每" +:+ w]
            | None => desc
            end
          else desc ++ ["日期: " +:+ cron_expr]
        else desc in
      if (length desc <=? 3)%nat then PyStr.join " " desc else cron_expr
  | _ => cron_expr
  end.

(** What [cmd_list] sends to the terminal: [print_info] and
    [print_error] decorate their message with colours and the time of
    day, [print] writes its argument followed by a newline. *)
Inductive output :=
| PrintInfo (msg : string)
| PrintError (msg : string)
| Print (text : string).

Definition task_enabled (t : task) : bool := default true (t_enabled t).

(** The body of the [for i, task in enumerate(tasks, 1)] loop.
    [croniter] is [None] when the import fails; otherwise it maps a
    schedule to the formatted next run, or to [None] when the evaluator
    raises. *)
Definition list_task (croniter : option (string → option string))
    (i : nat) (t : task) : list output :=
  let name := default "未命名" (t_name t) in
  let schedule := default "无调度" (t_schedule t) in
  let script := default "无脚本" (t_script t) in
  let enabled := task_enabled t in
  let description := default "" (t_description t) in
  let status_icon := if enabled then "[启用]" else "[禁用]" in
  let readable := parse_cron schedule in
  [Print (nl +:+ pretty i +:+ ". " +:+ status_icon +:+ " " +:+ name);
   Print ("   调度: " +:+ schedule)]
  ++ (if String.eqb readable schedule then []
      else [Print ("   说明: " +:+ readable)])
  ++ (match croniter with
      | Some next =>
          if enabled then
            match next schedule with
            | Some next_run => [Print ("   下次: " +:+ next_run)]
            | None => []
            end
          else []
      | None => []
      end)
  ++ [Print ("   脚本: " +:+ script)]
  ++ (if PyStr.truthy description
      then [Print ("   描述: " +:+ description)] else []).

Fixpoint list_tasks (croniter : option (string → option string))
    (i : nat) (tasks : list task) : list output :=
  match tasks with
  | [] => []
  | t :: rest => list_task croniter i t ++ list_tasks croniter (S i) rest
  end.

(** [sum(1 for t in tasks if t.get("enabled", True))] *)
Definition enabled_count (tasks : list task) : nat :=
  length (filter (λ t, task_enabled t = true) tasks).

(** [loaded] is the result of [load_config]: [None] when config.yml is
    missing or unreadable.  The result is the exit code and the text
    printed. *)
Definition cmd_list (loaded : option config)
    (croniter : option (string → option string)) : Z * list output :=
  let start := [PrintInfo "定时任务计划列表:"] in
  match loaded with
  | None => (1%Z, start ++ [PrintError "未找到 config.yml 文件"])
  | Some cfg =>
      match default [] (c_tasks cfg) with
      | [] => (0%Z, start ++ [Print "未配置任何任务"])
      | tasks =>
          let rule := PyStr.repeat "-" 80 in
          (0%Z,
           start
           ++ [Print (nl +:+ "任务总数: " +:+ pretty (length tasks) +:+ nl);
               Print rule]
           ++ list_tasks croniter 1 tasks
           ++ [Print (nl +:+ rule);
               Print (nl +:+ "统计: " +:+ pretty (enabled_count tasks) +:+ " 个启用, "
                      +:+ pretty (length tasks - enabled_count tasks)
                      +:+ " 个禁用")]
           ++ (match croniter with
               | Some _ => []
               | None =>
                   [Print (nl +:+ "提示: 安装 croniter (pip install croniter) "
                          +:+ "可显示下次执行时间")]
               end))
      end
  end.

End Manage.

Definition demo_task : task :=
  Task (Some "demo") (Some "0 * * * *") (Some "x.py") (Some true) None None.

Definition demo_config : config :=
  Config (Some [demo_task]) (Some [("A", "1")]).

(** ** Logging and configuration loading shared by the generators

    [logger.py] stamps every message with the time and a level tag; the
    model keeps the level function called and the message. *)

Inductive log_entry :=
| LogInfo (msg : string)
| LogSuccess (msg : string)
| LogWarning (msg : string)
| LogError (msg : string).

(** The outcome of [open(config_path)] followed by [yaml.safe_load]. *)
Inductive load_result :=
| NotFound
| YamlError (e : string)
| Loaded (cfg : config).

(** What a generator leaves behind: its return value, the content of the
    output file ([None] when the file does not exist) and the log. *)
Record generated := Generated {
  g_ok : bool;
  g_file : option string;
  g_log : list log_entry;
}.

Definition load_failure (config_path : string) (r : load_result)
  : option log_entry :=
  match r with
  | NotFound => Some (LogError ("错误: 未找到配置文件 " +:+ config_path))
  | YamlError e => Some (LogError ("错误: 解析 YAML 失败: " +:+ e))
  | Loaded _ => None
  end.

(** ** src/make_env.py *)

Module MakeEnv.

(** The escaping of [generate_env]: every double quote of the value gets
    a backslash in front.  [str(value)] is the value itself for a string. *)
Fixpoint escape_quotes (s : string) : string :=
  match s with
  | EmptyString => EmptyString
  | String a rest =>
      if PyStr.byte_is 34 a then bs +:+ dq +:+ escape_quotes rest
      else String a (escape_quotes rest)
  end.

(** [f'export {key}="{escaped_value}"\n'] *)
Definition export_line (key value : string) : string :=
  "export " +:+ key +:+ "=" +:+ dq +:+ escape_quotes value +:+ dq +:+ nl.

Definition header_writes (stamp : string) : list string :=
  ["# 自动生成的环境变量文件" +:+ nl;
   "# 生成时间: " +:+ stamp +:+ nl;
   "# 不要手动编辑此文件" +:+ nl +:+ nl].

Definition global_writes (cfg : config) : list string :=
  match c_global_env cfg with
  | Some global_env =>
      ["# 全局环境变量" +:+ nl]
      ++ map (λ kv, export_line kv.1 kv.2) global_env
      ++ [nl]
  | None => []
  end.

(** One iteration of [for task in config['tasks']]. *)
Definition task_writes (t : task) : list string :=
  let task_name := default "" (t_name t) in
  if negb (PyStr.truthy task_name) then []
  else
    let is_enabled := default true (t_enabled t) in
    let status := if is_enabled then "启用" else "禁用" in
    ["# 任务: " +:+ task_name +:+ " (" +:+ status +:+ ")" +:+ nl]
    ++ match t_env t with
       | Some env =>
           map (λ kv, export_line (task_name +:+ "_" +:+ kv.1) kv.2) env
       | None => []
       end
    ++ [nl].

Definition tasks_writes (cfg : config) : list string :=
  match c_tasks cfg with
  | Some ((_ :: _) as tasks) =>
      ["# 任务专属环境变量" +:+ nl] ++ flat_map task_writes tasks
  | _ => []
  end.

(** The arguments of the successive [f.write] calls; [stamp] is the value
    of [datetime.now().strftime('%Y-%m-%d %H:%M:%S')]. *)
Definition env_writes (cfg : config) (stamp : string) : list string :=
  header_writes stamp ++ global_writes cfg ++ tasks_writes cfg.

(** [old] is the env file before the call.  The file is opened with mode
    ['w'], which discards what it held. *)
Definition generate_env (config_path env_file : string) (r : load_result)
    (stamp : string) (old : option string) : generated :=
  match r with
  | Loaded cfg =>
      Generated true (Some (PyStr.concat (env_writes cfg stamp)))
        [LogSuccess ("环境变量文件已生成: " +:+ env_file)]
  | _ => Generated false old (option_list (load_failure config_path r))
  end.

End MakeEnv.

(** ** src/make_cron.py *)

Module MakeCron.

Definition header : string := "# 定时任务定义" +:+ nl.

Definition task_enabled (t : task) : bool := default true (t_enabled t).

(** The two forms of the cron line, with and without the wrapper. *)
Definition cron_line (wrapper : bool) (schedule name script : string)
  : string :=
  if wrapper then
    schedule +:+ " cd /app && . /app/.env 2>/dev/null; "
      +:+ "python3 /app/task_wrapper.py '" +:+ name +:+ "' '" +:+ script
      +:+ "' >> /proc/1/fd/1 2>&1" +:+ nl
  else
    schedule +:+ " cd /app && . /app/.env 2>/dev/null; python3 "
      +:+ script +:+ " >> /proc/1/fd/1 2>&1" +:+ nl.

(** The three writes made for a task that is kept: its comment, its cron
    line and an empty line. *)
Definition entry_writes (wrapper : bool) (schedule name script : string)
  : list string :=
  ["# 任务: " +:+ name +:+ nl; cron_line wrapper schedule name script; nl].

(** One iteration of [for task in config['tasks']], on the chunks written
    so far and the log so far.  [path_exists] is [os.path.exists]. *)
Definition cron_step (path_exists : string → bool)
    (st : list string * list log_entry) (t : task)
  : list string * list log_entry :=
  let '(written, log) := st in
  if negb (task_enabled t) then
    (written,
     log ++ [LogInfo ("禁用任务: " +:+ default "未命名任务" (t_name t))])
  else
    let name := default "未命名任务" (t_name t) in
    let schedule := default "0 * * * *" (t_schedule t) in
    let script := default "" (t_script t) in
    if negb (PyStr.truthy script) then
      (written,
       log ++ [LogWarning ("跳过任务 " +:+ name +:+ ": 未配置脚本路径")])
    else if negb (path_exists script) then
      (written,
       log ++ [LogWarning
                 ("跳过任务 " +:+ name +:+ ": 脚本不存在 " +:+ script)])
    else
      (written
       ++ entry_writes (path_exists "/app/task_wrapper.py")
            schedule name script,
       log ++ [LogSuccess ("已添加任务: " +:+ name +:+ " (" +:+ schedule
                           +:+ ") -> " +:+ script)]).

(** The chunks written inside [with open(cron_file, 'a')] and the log. *)
Definition cron_writes (path_exists : string → bool) (cfg : config)
  : list string * list log_entry :=
  match c_tasks cfg with
  | Some ((_ :: _) as tasks) =>
      let '(written, log) :=
        fold_left (cron_step path_exists) tasks ([header], []) in
      (written ++ [nl], log)
  | _ => ([header], [LogWarning "未配置任何任务"])
  end.

(** [old] is the cron file before the call.  The file is opened with mode
    ['a']: every write lands after what the file already holds. *)
Definition generate_cron (config_path cron_file : string) (r : load_result)
    (path_exists : string → bool) (old : option string) : generated :=
  match r with
  | Loaded cfg =>
      let '(written, log) := cron_writes path_exists cfg in
      Generated true (Some (default "" old +:+ PyStr.concat written)) log
  | _ => Generated false old (option_list (load_failure config_path r))
  end.

End MakeCron.

Definition demo_env_task : task :=
  Task (Some "demo") (Some "0 * * * *") (Some "x.py") (Some true)
       (Some [("FOO", "bar")]) None.

Definition demo_env_config : config :=
  Config (Some [demo_env_task]) (Some [("A", "1")]).

(** ** src/task_wrapper.py *)

Module TaskWrapper.

(** [os.environ]: a finite map from names to values. *)
Abbreviation environ := (gmap string string).

(** [setup_task_env]: the loop over [os.environ.items()] inserts into
    [task_env], which starts empty.  [key[len(prefix):]] is taken only
    when [key] starts with [prefix], so that the [len(prefix)] characters
    removed are the bytes of [prefix]. *)
Definition setup_task_env (task_name : string) (env : environ) : environ :=
  let prefix := task_name +:+ "_" in
  map_fold
    (λ key value task_env,
       if PyStr.startswith prefix key
       then <[PyStr.drop_bytes (String.length prefix) key := value]> task_env
       else task_env)
    ∅ env.

(** *** Reading the env file *)

(** The text split into space and non-space pieces, in order; a piece is
    one [str.isspace] character or one other byte. *)
Fixpoint pieces (s : string) (skip : nat) (cur : string)
  : list (bool * string) :=
  match s with
  | EmptyString => []
  | String a rest =>
      match skip with
      | S (S k) => pieces rest (S k) (cur +:+ String a "")
      | 1 => (true, cur +:+ String a "") :: pieces rest 0 ""
      | O =>
          match PyStr.space_width s with
          | O => (false, String a "") :: pieces rest 0 ""
          | 1 => (true, String a "") :: pieces rest 0 ""
          | S (S k) => pieces rest (S k) (String a "")
          end
      end
  end.

Fixpoint drop_spaces (l : list (bool * string)) : list (bool * string) :=
  match l with
  | (true, _) :: rest => drop_spaces rest
  | _ => l
  end.

(** [s.strip()] *)
Definition strip (s : string) : string :=
  PyStr.concat
    (map snd (rev (drop_spaces (rev (drop_spaces (pieces s 0 "")))))).

(** The lines a text-mode file yields, without their line ends.  With
    universal newlines a line ends at a line feed, at a carriage return
    or at the two together; the empty line that a pair adds when it is
    cut twice is one the caller skips. *)
Fixpoint file_lines (s : string) (cur : string) : list string :=
  match s with
  | EmptyString => [cur]
  | String a rest =>
      if PyStr.byte_is 10 a || PyStr.byte_is 13 a
      then cur :: file_lines rest ""
      else file_lines rest (cur +:+ String a "")
  end.

(** [line.split('=', 1)] for a line that holds an equals sign. *)
Fixpoint split_eq (s : string) (key : string) : option (string * string) :=
  match s with
  | EmptyString => None
  | String a rest =>
      if PyStr.byte_is 61 a then Some (key, rest)
      else split_eq rest (key +:+ String a "")
  end.

Definition last_byte_is (n : N) (s : string) : bool :=
  match String.rev s with
  | String a _ => PyStr.byte_is n a
  | EmptyString => false
  end.

Definition first_byte_is (n : N) (s : string) : bool :=
  match s with
  | String a _ => PyStr.byte_is n a
  | EmptyString => false
  end.

(** [value[1:-1]] *)
Definition strip_ends (s : string) : string :=
  match PyStr.drop_bytes 1 s with
  | EmptyString => EmptyString
  | inner => String.rev (PyStr.drop_bytes 1 (String.rev inner))
  end.

(** The unescaping of [load_env_file]: every backslash followed by a
    double quote becomes the double quote alone.  [skip] passes the quote
    of a pair that has been replaced. *)
Fixpoint unescape_quotes (s : string) (skip : bool) : string :=
  match s with
  | EmptyString => EmptyString
  | String a rest =>
      if skip then unescape_quotes rest false
      else if PyStr.byte_is 92 a && first_byte_is 34 rest
      then dq +:+ unescape_quotes rest true
      else String a (unescape_quotes rest false)
  end.

Definition has_nul (s : string) : bool :=
  PyStr.contains (String "000"%char "") s.

(** [os.environ[key] = value] raises [ValueError] for an empty name and
    for a name or a value with a NUL byte. *)
Definition putenv_ok (key value : string) : bool :=
  PyStr.truthy key && negb (has_nul key) && negb (has_nul value).

(** One line of the file: the new environment, or [None] when the
    assignment raises. *)
Definition load_line (raw : string) (env : environ) : option environ :=
  let line := strip raw in
  if negb (PyStr.truthy line) || PyStr.startswith "#" line then Some env
  else
    let line :=
      if PyStr.startswith "export " line
      then PyStr.drop_bytes 7 line else line in
    match split_eq line "" with
    | None => Some env
    | Some (key, value) =>
        let key := strip key in
        let value :=
          if first_byte_is 34 value && last_byte_is 34 value
          then strip_ends value
          else if first_byte_is 39 value && last_byte_is 39 value
          then strip_ends value
          else value in
        let value := unescape_quotes value false in
        if putenv_ok key value then Some (<[key := value]> env) else None
    end.

(** The [for line in f] loop inside [try]; an exception leaves the loop,
    is logged, and the assignments made so far stay. *)
Fixpoint load_lines (lines : list string) (env : environ) : environ :=
  match lines with
  | [] => env
  | raw :: rest =>
      match load_line raw env with
      | Some env' => load_lines rest env'
      | None => env
      end
  end.

(** [load_env_file]; [content] is the text of the file, [None] when the
    file does not exist. *)
Definition load_env_file (content : option string) (env : environ)
  : environ :=
  match content with
  | None => env
  | Some text => load_lines (file_lines text "") env
  end.

(** *** The body of [main] *)

(** Code inside [try ... except Exception]. *)
Inductive result (A : Type) :=
| Ok (a : A)
| Raised.
Arguments Ok {A} a.
Arguments Raised {A}.

Definition bind {A B} (r : result A) (k : A → result B) : result B :=
  match r with
  | Ok a => k a
  | Raised => Raised
  end.

Notation "x ←! r ; k" := (bind r (λ x, k))
  (at level 100, r at next level, right associativity).

(** [l[start:]] for a Python list and any integer [start]. *)
Definition slice_from {A} (start : Z) (l : list A) : list A :=
  let len := Z.of_nat (length l) in
  let start :=
    if (start <? 0)%Z then Z.max (start + len) 0 else Z.min start len in
  drop (Z.to_nat start) l.

(** [line.rstrip('\n')] *)
Fixpoint rstrip_nl_rev (r : string) : string :=
  match r with
  | String a rest => if PyStr.byte_is 10 a then rstrip_nl_rev rest else r
  | EmptyString => EmptyString
  end.

Definition rstrip_nl (s : string) : string :=
  String.rev (rstrip_nl_rev (String.rev s)).

(** A child that was started.  Its output is opened as text and read
    line by line outside any [try]: the loop either reaches the end of the
    output, after which [process.wait()] gives the exit code, or raises
    (output that does not decode, a [print] that fails) after some
    lines. *)
Inductive child :=
| Finished (raw_lines : list string) (exit_code : Z)
| ReadFailed (raw_lines : list string).

(** What main needs from outside the process. *)
Record world := World {
  (** the content of /app/.env, [None] when the file is missing *)
  w_env_file : option string;
  (** [os.environ] when the wrapper starts *)
  w_environ : environ;
  (** [subprocess.Popen] with the command and the environment the child
      inherits, or [None] when the child cannot be started *)
  w_popen : list string → environ → option child;
  (** [Path('/app/notify.py').exists()] *)
  w_notify_exists : bool;
  (** whether [subprocess.run] raises on the notifier command *)
  w_notify_raises : list string → bool;
}.

Inductive outcome :=
| Exit (code : Z)       (** [sys.exit(code)] *)
| Uncaught.             (** an exception reached the top level *)

Record run := Run {
  r_outcome : outcome;
  (** the value of [process.wait()], when it was reached *)
  r_child : option Z;
  (** the lines printed from the child's output *)
  r_printed : list string;
  (** the notifier commands that were run *)
  r_notified : list (list string);
}.

Section Main.

(** [int] on a string: [None] when it raises [ValueError]. *)
Variable py_int : string → option Z.

(** [int(os.environ.get('LOG_LINES', 15))] *)
Definition log_lines_of (env : environ) : result Z :=
  match env !! "LOG_LINES" with
  | None => Ok 15%Z
  | Some s => match py_int s with Some n => Ok n | None => Raised end
  end.

Definition task_log_content (log_lines : Z) (output_lines : list string)
  : string :=
  match output_lines with
  | [] => "无输出"
  | _ => PyStr.join nl (slice_from (- log_lines) output_lines)
  end.

Definition notify_cmd (task_name : string) (log_lines : Z)
    (output_lines : list string) : list string :=
  ["python3"; "/app/notify.py";
   task_name +:+ " 执行失败";
   "详情见日志";
   "--log-content"; task_log_content log_lines output_lines;
   "--log-lines"; pretty log_lines].

(** The [try] block: the commands run by it, or the exception. *)
Definition try_notify (w : world) (env : environ) (task_name : string)
    (output_lines : list string) : result (list (list string)) :=
  log_lines ←! log_lines_of env;
  let cmd := notify_cmd task_name log_lines output_lines in
  if w_notify_raises w cmd then Raised else Ok [cmd].

(** [except Exception: pass] *)
Definition send_failure (w : world) (env : environ) (task_name : string)
    (output_lines : list string) : list (list string) :=
  match try_notify w env task_name output_lines with
  | Ok cmds => cmds
  | Raised => []
  end.

(** [os.environ] after [load_env_file]. *)
Definition loaded_environ (w : world) : environ :=
  load_env_file (w_env_file w) (w_environ w).

(** [os.environ[key] = value] for every item of [task_env]. *)
Definition set_all (task_env env : environ) : environ :=
  map_fold (λ key value acc, <[key := value]> acc) env task_env.

(** The environment the child inherits. *)
Definition child_environ (w : world) (task_name : string) : environ :=
  set_all (setup_task_env task_name (loaded_environ w)) (loaded_environ w).

Definition child_cmd (script_path : string) (script_args : list string)
  : list string :=
  ["python3"; script_path] ++ script_args.

Definition main (w : world) (argv : list string) : run :=
  match argv with
  | _ :: task_name :: script_path :: script_args =>
      let task_env := setup_task_env task_name (loaded_environ w) in
      match task_env !! "" with
      | Some _ =>
          (* a variable named exactly as the prefix: the assignment of the
             empty name raises outside any [try] *)
          Run Uncaught None [] []
      | None =>
          let env := set_all task_env (loaded_environ w) in
          match w_popen w (child_cmd script_path script_args) env with
          | None => Run Uncaught None [] []
          | Some (ReadFailed raw_lines) =>
              (* the exception leaves the loop and [main]: no
                 [process.wait()], no notification, no [sys.exit] *)
              Run Uncaught None (map rstrip_nl raw_lines) []
          | Some (Finished raw_lines exit_code) =>
              let output_lines := map rstrip_nl raw_lines in
              let notified :=
                if negb (exit_code =? 0)%Z then
                  if w_notify_exists w
                  then send_failure w env task_name output_lines
                  else []
                else [] in
              Run (Exit exit_code) (Some exit_code) output_lines notified
          end
      end
  | _ => Run (Exit 1) None [] []
  end.

End Main.

(** A reading of decimal integers for the examples: an optional minus
    sign and ASCII digits.  Python's [int] reads more (a plus sign, white
    space around the number, underscores between digits). *)
Fixpoint digits_value (s : string) (acc : Z) : option Z :=
  match s with
  | EmptyString => Some acc
  | String a rest =>
      if PyStr.byte_in 48 57 a
      then digits_value rest (10 * acc + Z.of_N (N_of_ascii a) - 48)%Z
      else None
  end.

Definition decimal_int (s : string) : option Z :=
  match s with
  | EmptyString => None
  | String a rest =>
      if PyStr.byte_is 45 a then
        (if PyStr.truthy rest then Z.opp <$> digits_value rest 0 else None)
      else digits_value s 0%Z
  end.

End TaskWrapper.

(** ** src/notify.py *)

Module Notify.

(** The dictionary built by [_load_config], with the keys that [notify]
    and the two checks read.  The remaining keys (body, headers,
    priority, credentials) are read by the senders only. *)
Record notify_config := NotifyConfig {
  on_failure : bool;
  on_success : bool;
  webhook_url : string;
  webhook_method : string;
  ntfy_url : string;
  ntfy_topic : string;
}.

Definition _check_webhook_config (config : notify_config) : bool :=
  PyStr.truthy (webhook_url config) && PyStr.truthy (webhook_method config).

Definition _check_ntfy_config (config : notify_config) : bool :=
  PyStr.truthy (ntfy_url config) && PyStr.truthy (ntfy_topic config).

Inductive channel := Webhook | Ntfy.

(** A started thread: its target ([webhook_notify] or [ntfy_notify2]) and
    the arguments next to the configuration. *)
Record thread := Thread {
  th_target : channel;
  th_title : string;
  th_content : string;
  th_log_content : string;
  th_log_lines : Z;
}.

Definition is_failure (title : string) : bool :=
  PyStr.contains "失败" title || PyStr.contains "错误" title
  || PyStr.contains "异常" title.

(** The part of [notify] after the checks: one thread for each channel
    whose configuration is complete. *)
Definition dispatch (config : notify_config) (title content : string)
    (log_content : string) (log_lines : Z) : list thread * list log_entry :=
  let '(threads, log) :=
    if _check_webhook_config config
    then ([Thread Webhook title content log_content log_lines], [])
    else ([], [LogWarning "WEBHOOK 未配置 (缺少 notify.webhook.url)"]) in
  if _check_ntfy_config config
  then (threads ++ [Thread Ntfy title content log_content log_lines], log)
  else (threads,
        log ++ [LogWarning
                  "NTFY 未配置 (缺少 notify.ntfy.url 或 notify.ntfy.topic)"]).

(** [notify]: the threads started (all joined before it returns) and the
    log. *)
Definition notify (config : notify_config) (title content : string)
    (force : bool) (log_content : string) (log_lines : Z)
  : list thread * list log_entry :=
  if negb (PyStr.truthy content) then
    ([], [LogWarning ("推送内容为空，跳过: " +:+ title)])
  else if negb force && (is_failure title && negb (on_failure config)) then
    ([], [LogInfo ("跳过失败通知（on_failure=false）: " +:+ title)])
  else if negb force && (negb (is_failure title) && negb (on_success config))
  then
    ([], [LogInfo ("跳过成功通知（on_success=false）: " +:+ title)])
  else dispatch config title content log_content log_lines.

End Notify.

(** ** Scenarios and vocabulary of the statements *)

(** The child prints three lines and exits with 1; the env file holds the
    variable of the task [demo]. *)
Definition demo_world : TaskWrapper.world :=
  TaskWrapper.World
    (Some ("export demo_FOO=" +:+ dq +:+ "bar" +:+ dq +:+ nl)) ∅
    (λ _ _, Some (TaskWrapper.Finished ["a" +:+ nl; "b" +:+ nl; "c"] 1%Z))
    true (λ _, false).

Definition demo_argv : list string := ["task_wrapper.py"; "demo"; "x.py"].

(** The same world with another notifier: present or not, failing to
    start or not. *)
Definition with_notifier (w : TaskWrapper.world) (present : bool)
    (raises : list string → bool) : TaskWrapper.world :=
  TaskWrapper.World (TaskWrapper.w_env_file w) (TaskWrapper.w_environ w)
    (TaskWrapper.w_popen w) present raises.

(** The same world with another starting environment. *)
Definition with_environ (w : TaskWrapper.world)
    (env : TaskWrapper.environ) : TaskWrapper.world :=
  TaskWrapper.World (TaskWrapper.w_env_file w) env
    (TaskWrapper.w_popen w) (TaskWrapper.w_notify_exists w)
    (TaskWrapper.w_notify_raises w).

(** A task for which [generate_cron] writes an entry. *)
Definition runnable (path_exists : string → bool) (t : task) : bool :=
  MakeCron.task_enabled t
  && PyStr.truthy (default "" (t_script t))
  && path_exists (default "" (t_script t)).

(** The chunks and the log of one iteration of the loop of
    [generate_cron], started from nothing. *)
Definition task_entry (path_exists : string → bool) (t : task)
  : list string * list log_entry :=
  MakeCron.cron_step path_exists ([], []) t.

(** The chunks written and the messages logged over a list of tasks. *)
Definition entries (path_exists : string → bool) (tasks : list task)
  : list string :=
  flat_map (λ t, (task_entry path_exists t).1) tasks.

Definition entry_logs (path_exists : string → bool) (tasks : list task)
  : list log_entry :=
  flat_map (λ t, (task_entry path_exists t).2) tasks.

(** The three chunks of the cron file for a task that is kept: the
    comment with its name, the cron line (through the wrapper when
    /app/task_wrapper.py exists) and an empty line, with the defaults of
    [generate_cron] for a missing name or schedule. *)
Definition cron_entry (path_exists : string → bool) (t : task)
  : list string :=
  let name := default "未命名任务" (t_name t) in
  let schedule := default "0 * * * *" (t_schedule t) in
  let script := default "" (t_script t) in
  ["# 任务: " +:+ name +:+ nl;
   (if path_exists "/app/task_wrapper.py" then
      schedule
      +:+ " cd /app && . /app/.env 2>/dev/null; python3 /app/task_wrapper.py '"
      +:+ name +:+ "' '" +:+ script +:+ "' >> /proc/1/fd/1 2>&1"
    else
      schedule +:+ " cd /app && . /app/.env 2>/dev/null; python3 "
      +:+ script +:+ " >> /proc/1/fd/1 2>&1")
   +:+ nl;
   nl].

(** What one run of [generate_cron] puts at the end of the cron file. *)
Definition cron_block (path_exists : string → bool) (cfg : config)
  : list string :=
  match c_tasks cfg with
  | Some ((_ :: _) as tasks) =>
      ["# 定时任务定义" +:+ nl]
      ++ flat_map (cron_entry path_exists)
           (List.filter (runnable path_exists) tasks)
      ++ [nl]
  | _ => ["# 定时任务定义" +:+ nl]
  end.

Definition with_tasks (cfg : config) (tasks : list task) : config :=
  Config (Some tasks) (c_global_env cfg).

Definition disabled_task : task :=
  Task (Some "off") (Some "5 4 * * *") (Some "off.py") (Some false)
       None None.

Definition lost_task : task :=
  Task (Some "lost") (Some "5 4 * * *") (Some "lost.py") None None None.

Definition three_tasks : config :=
  Config (Some [lost_task; disabled_task; demo_task]) None.

(** A file system that holds the wrapper and [x.py] only. *)
Definition demo_exists (path : string) : bool :=
  String.eqb path "/app/task_wrapper.py" || String.eqb path "x.py".

Definition demo_notify_config : Notify.notify_config :=
  Notify.NotifyConfig false false "https://example.com/hook" "POST" "" "".

(** ** Vocabulary for the env file read back by the wrapper *)

(** A text without line feed and without carriage return. *)
Fixpoint one_line (s : string) : bool :=
  match s with
  | EmptyString => true
  | String a rest =>
      negb (PyStr.byte_is 10 a || PyStr.byte_is 13 a) && one_line rest
  end.

(** A name that [load_env_file] reads back as it is and that can be set
    in the environment: not empty, on one line, without equals sign and
    NUL byte, and without white space at its ends. *)
Definition loadable_name (key : string) : bool :=
  PyStr.truthy key && one_line key
  && negb (PyStr.contains "=" key)
  && negb (TaskWrapper.has_nul key)
  && String.eqb (TaskWrapper.strip key) key.

(** A value that fits on one line of the env file and can be set in the
    environment. *)
Definition loadable_value (value : string) : bool :=
  one_line value && negb (TaskWrapper.has_nul value).

(** The variables that [generate_env] writes, in the order of the file:
    the global ones, then those of every task that has a name, under the
    name of the task, an underscore and the key. *)
Definition task_bindings (t : task) : list (string * string) :=
  let task_name := default "" (t_name t) in
  if PyStr.truthy task_name
  then map (λ kv, (task_name +:+ "_" +:+ kv.1, kv.2)) (default [] (t_env t))
  else [].

Definition env_bindings (cfg : config) : list (string * string) :=
  default [] (c_global_env cfg)
  ++ flat_map task_bindings (default [] (c_tasks cfg)).

(** The tasks that get a comment line in the env file. *)
Definition named_tasks (cfg : config) : list task :=
  List.filter (λ t, PyStr.truthy (default "" (t_name t)))
              (default [] (c_tasks cfg)).

(** A configuration whose env file the wrapper reads back in full. *)
Definition loadable_config (cfg : config) : bool :=
  forallb (λ kv, loadable_name kv.1 && loadable_value kv.2)
          (env_bindings cfg)
  && forallb (λ t, one_line (default "" (t_name t))) (named_tasks cfg).

(** [os.environ[key] = value] for every pair, from left to right. *)
Definition set_pairs (env : gmap string string)
    (pairs : list (string * string)) : gmap string string :=
  fold_left (λ e kv, <[kv.1 := kv.2]> e) pairs env.

Definition quoted_config : config :=
  Config
    (Some [Task (Some "demo") None (Some "x.py") (Some false)
             (Some [("MSG", "say " +:+ dq +:+ "hi" +:+ dq +:+ " = " +:+ bs)])
             None;
           Task None None None None (Some [("LOST", "1")]) None])
    (Some [("A", "1"); ("MSG", "global")]).

(** An ASCII byte that is not white space. *)
Definition ascii_plain (a : ascii) : bool :=
  (N_of_ascii a <? 128)%N
  && negb (PyStr.byte_in 9 13 a || PyStr.byte_in 28 32 a).

(** The line of the env file for one variable, without its line feed. *)
Definition export_text (key value : string) : string :=
  "export " +:+ key +:+ "=" +:+ dq +:+ MakeEnv.escape_quotes value +:+ dq.

(** ** src/notify.py: the result of a task *)

Module NotifyResult.

Definition result_title (task_name : string) (success : bool) : string :=
  if success then "✅ " +:+ task_name +:+ " 执行成功"
  else "❌ " +:+ task_name +:+ " 执行失败".

Definition result_content (success : bool) (message : string) : string :=
  if PyStr.truthy message then message
  else if success then "任务执行完成" else "任务执行失败，请查看日志".

(** [notify_task_result]: [notify] is called with its defaults, that is
    without [force], with an empty log content and 15 log lines. *)
Definition notify_task_result (config : Notify.notify_config)
    (task_name : string) (success : bool) (message : string)
  : list Notify.thread * list log_entry :=
  Notify.notify config (result_title task_name success)
    (result_content success message) false "" 15.

End NotifyResult.

(** ** src/webapp.py *)

Module Webapp.

(** [parse_cron] of the web interface.  Its table of week days is the one
    of manage.py. *)
Definition parse_cron (cron_expr : string) : string :=
  match PyStr.split cron_expr with
  | [minute; hour; day; month; weekday] =>
      let desc : list string :=
        if Manage.is_star minute then ["每分钟"]
        else if PyStr.startswith "*/" minute
             then ["每" +:+ PyStr.drop_bytes 2 minute +:+ "分钟"]
        else [minute +:+ "分"] in
      let desc :=
        if Manage.is_star hour then
          (if PyStr.contains "每" (hd "" desc)
           then desc ++ ["每小时"] else desc)
        else if PyStr.startswith "*/" hour
             then desc ++ ["每" +:+ PyStr.drop_bytes 2 hour +:+ "小时"]
        else desc ++ [hour +:+ "时"] in
      let desc :=
        if negb (Manage.is_star weekday) then
          match Manage.weekdays weekday with
          | Some w => desc ++ ["每" +:+ w]
          | None => desc
          end
        else desc in
      if (length desc <=? 3)%nat then PyStr.join " " desc else cron_expr
  | _ => cron_expr
  end.

(** The JSON answer of [api_toggle_task]. *)
Record toggle_response := ToggleResponse {
  tr_success : bool;
  tr_enabled : option bool;
  tr_message : string;
}.

Definition set_enabled (t : task) (enabled : bool) : task :=
  Task (t_name t) (t_schedule t) (t_script t) (Some enabled) (t_env t)
       (t_description t).

Section Toggle.

(** [str.lower] *)
Variable lower : string → string.

(** The loop of [api_toggle_task]: the first task whose lowered name is
    the lowered [task_name] gets [enabled] set to the opposite of what
    [task.get("enabled", True)] gives, and the loop ends.  The result is
    the new list and the new status, or [None] when no task is found. *)
Fixpoint toggle_first (task_name : string) (tasks : list task)
  : option (list task * bool) :=
  match tasks with
  | [] => None
  | t :: rest =>
      if String.eqb (lower (default "" (t_name t))) (lower task_name)
      then
        let new_status := negb (default true (t_enabled t)) in
        Some (set_enabled t new_status :: rest, new_status)
      else
        match toggle_first task_name rest with
        | Some (rest', new_status) => Some (t :: rest', new_status)
        | None => None
        end
  end.

(** [api_toggle_task]: [loaded] is the result of [load_config], [save_ok]
    tells whether [save_config] succeeds.  The result is the answer and
    the configuration handed to [save_config], if any. *)
Definition api_toggle_task (loaded : option config) (save_ok : bool)
    (task_name : string) : toggle_response * option config :=
  match loaded with
  | Some (Config (Some tasks) global_env) =>
      match toggle_first task_name tasks with
      | None => (ToggleResponse false None "任务未找到", None)
      | Some (tasks', new_status) =>
          let config := Config (Some tasks') global_env in
          if save_ok then
            (ToggleResponse true (Some new_status)
               ("任务已" +:+ (if new_status then "启用" else "禁用")),
             Some config)
          else (ToggleResponse false None "保存配置失败", Some config)
      end
  | _ => (ToggleResponse false None "配置未找到", None)
  end.

End Toggle.

End Webapp.

(** ** manage.py: the menu and the run command *)

Module Cli.

(** [calc_width] of [print_menu], on the UTF-8 form of the text: a
    character above 127 is one lead byte, which counts 2, and
    continuation bytes (128 to 191), which count nothing. *)
Fixpoint calc_width (text : string) : nat :=
  match text with
  | EmptyString => 0
  | String a rest =>
      (if (N_of_ascii a <? 128)%N then 1
       else if PyStr.byte_in 128 191 a then 0 else 2)
      + calc_width rest
  end.

(** [pad_to_width] of [print_menu] *)
Definition pad_to_width (text : string) (target_width : Z) : string :=
  let current_width := Z.of_nat (calc_width text) in
  let padding := (target_width - current_width)%Z in
  text +:+ PyStr.repeat " " (Z.to_nat (Z.max 0 padding)).

Definition CONTAINER_NAME : string := "lite-cron".

Inductive event :=
| Info (msg : string)
| Success (msg : string)
| Warning (msg : string)
| Error (msg : string)
| Plain (text : string).

(** What [cmd_run] needs from the host. *)
Record host := Host {
  (** [is_running()] *)
  h_running : bool;
  (** [load_config()] *)
  h_config : option config;
  (** the return code of [subprocess.run(cmd, shell=True)] *)
  h_shell : string → Z;
  (** what [select_task_interactive()] returns *)
  h_selected : option string;
  (** the text of the exception that [subprocess.run] raises on a command
      it cannot start (a NUL byte in it, a command that is too long),
      [None] for a command that is run *)
  h_shell_raises : string → option string;
}.

Record ran := Ran {
  code : Z;
  printed : list event;
  executed : list string;
}.

(** [env_vars]: the variables of the task, then the global ones. *)
Definition env_vars (cfg : config) (t : task) : list string :=
  map (λ kv, kv.1 +:+ "='" +:+ kv.2 +:+ "'") (default [] (t_env t))
  ++ map (λ kv, kv.1 +:+ "='" +:+ kv.2 +:+ "'")
       (default [] (c_global_env cfg)).

Definition docker_cmd (cfg : config) (t : task) (task_name script : string)
  : string :=
  let env_args := PyStr.join " " (map (λ var, "-e " +:+ var) (env_vars cfg t)) in
  "docker exec -e LITECRON_EXEC_MODE=cli " +:+ env_args +:+ " "
    +:+ CONTAINER_NAME +:+ " python3 /app/task_wrapper.py '"
    +:+ task_name +:+ "' '" +:+ script +:+ "'".

Definition task_enabled (t : task) : bool := default true (t_enabled t).

Section Run.

Variable h : host.

(** [str.lower] *)
Variable lower : string → string.

(** The command of one task in the loop of [--all]. *)
Definition all_cmd (cfg : config) (t : task) : string :=
  docker_cmd cfg t (default "未命名" (t_name t)) (default "" (t_script t)).

(** One iteration of [for task in tasks_to_run] in which the command is
    run: the counts of successes and failures, the text printed and the
    commands run so far. *)
Definition run_step (cfg : config)
    (st : nat * nat * list event * list string) (t : task)
  : nat * nat * list event * list string :=
  let '(success_count, failed_count, out, cmds) := st in
  let task_name := default "未命名" (t_name t) in
  let cmd := all_cmd cfg t in
  let returncode := h_shell h cmd in
  let out := out ++ [Plain (nl +:+ "执行任务: " +:+ task_name)] in
  if (returncode =? 0)%Z then
    (S success_count, failed_count,
     out ++ [Plain (task_name +:+ " 执行成功")], cmds ++ [cmd])
  else
    (success_count, S failed_count,
     out ++ [Plain (task_name +:+ " 执行失败 (退出码: "
                    +:+ pretty returncode +:+ ")")],
     cmds ++ [cmd]).

(** The loop [for task in tasks_to_run]: the state after the last
    iteration or, when [subprocess.run] raises, the state at that point
    (the task is announced, its command is not run) and the text of the
    exception, which leaves the loop. *)
Fixpoint run_loop (cfg : config) (tasks_to_run : list task)
    (st : nat * nat * list event * list string)
  : nat * nat * list event * list string * option string :=
  match tasks_to_run with
  | [] => (st, None)
  | t :: rest =>
      match h_shell_raises h (all_cmd cfg t) with
      | Some e =>
          let '(success_count, failed_count, out, cmds) := st in
          (success_count, failed_count,
           out ++ [Plain (nl +:+ "执行任务: " +:+ default "未命名" (t_name t))],
           cmds, Some e)
      | None => run_loop cfg rest (run_step cfg st t)
      end
  end.

(** The branch [if run_all] of the [try] block, with its
    [except Exception as e]. *)
Definition run_all_tasks (cfg : config) : ran :=
  let out := [Info "执行所有已启用任务..."] in
  match List.filter task_enabled (default [] (c_tasks cfg)) with
  | [] => Ran 1 (out ++ [Plain "没有已启用的任务"]) []
  | tasks_to_run =>
      let out :=
        out ++ [Plain (nl +:+ "将执行 " +:+ pretty (length tasks_to_run)
                       +:+ " 个任务" +:+ nl +:+ PyStr.repeat "-" 50)] in
      match run_loop cfg tasks_to_run (0, 0, out, []) with
      | (_, _, out, cmds, Some e) =>
          Ran 1 (out ++ [Error ("执行失败: " +:+ e)]) cmds
      | (success_count, failed_count, out, cmds, None) =>
          Ran (if (0 <? failed_count)%nat then 1 else 0)
            (out ++ [Plain (nl +:+ PyStr.repeat "-" 50);
                     Plain (nl +:+ "执行完成: " +:+ pretty success_count
                            +:+ " 个成功, " +:+ pretty failed_count
                            +:+ " 个失败")])
            cmds
      end
  end.

(** The first task whose lowered name is the lowered [task_name]. *)
Definition find_task (task_name : string) (tasks : list task)
  : option task :=
  List.find
    (λ t, String.eqb (lower (default "" (t_name t))) (lower task_name))
    tasks.

(** [not task] for the task found: a dictionary without any key. *)
Definition is_empty_task (t : task) : bool :=
  match t with
  | Task None None None None None None => true
  | _ => false
  end.

(** The branch [else] of the [try] block, with its
    [except Exception as e]. *)
Definition run_one_task (cfg : config) (task_name : string) : ran :=
  let out := [Info ("立即执行任务: " +:+ task_name)] in
  match find_task task_name (default [] (c_tasks cfg)) with
  | None => Ran 1 (out ++ [Error ("未找到任务: " +:+ task_name)]) []
  | Some t =>
      if is_empty_task t then
        Ran 1 (out ++ [Error ("未找到任务: " +:+ task_name)]) []
      else if negb (task_enabled t) then
        Ran 1 (out ++ [Warning ("任务已禁用: " +:+ task_name)]) []
      else
        let script := default "" (t_script t) in
        if negb (PyStr.truthy script) then
          Ran 1 (out ++ [Error ("任务未配置脚本: " +:+ task_name)]) []
        else
          let cmd := docker_cmd cfg t task_name script in
          match h_shell_raises h cmd with
          | Some e => Ran 1 (out ++ [Error ("执行失败: " +:+ e)]) []
          | None =>
              if (h_shell h cmd =? 0)%Z
              then Ran 0 (out ++ [Success "任务执行完成"]) [cmd]
              else Ran 1 (out ++ [Error "任务执行失败"]) [cmd]
          end
  end.

(** [cmd_run]; [task_name] is [None] for Python's [None].  The text that
    [select_task_interactive] prints is not part of [printed]. *)
Definition cmd_run (task_name : option string) (run_all interactive : bool)
  : ran :=
  let given (name : option string) := PyStr.truthy (default "" name) in
  let selecting := interactive && negb (given task_name) && negb run_all in
  let task_name := if selecting then h_selected h else task_name in
  if selecting && negb (bool_decide (is_Some task_name)) then Ran 0 [] []
  else if negb (given task_name) && negb run_all then
    Ran 1 [Error "请指定任务名称或使用 --all 运行所有任务"] []
  else if negb (h_running h) then
    Ran 1 [Error "容器未运行，请先启动容器"; Info "使用: start 命令启动"] []
  else
    match h_config h with
    | None => Ran 1 [Error "未找到 config.yml 文件"] []
    | Some cfg =>
        if run_all then run_all_tasks cfg
        else run_one_task cfg (default "" task_name)
    end.

End Run.

End Cli.

Definition identity_lower (s : string) : string := s.

Definition demo_host : Cli.host :=
  Cli.Host true (Some three_tasks)
    (λ cmd, if PyStr.contains "lost" cmd then 2%Z else 0%Z) None
    (λ _, None).

(** A task whose name holds a NUL byte, and a host on which a command
    with a NUL byte cannot be started. *)
Definition nul_task : task :=
  Task (Some (String "000" "")) (Some "5 4 * * *") (Some "nul.py") None
       None None.

Definition strict_host : Cli.host :=
  Cli.Host true (Some (Config (Some [nul_task; demo_task]) None))
    (λ _, 0%Z) None
    (λ cmd, if TaskWrapper.has_nul cmd
            then Some "embedded null byte" else None).

(** A schedule of five fields whose day of the week is [*] while the day
    of the month or the month is not. *)
Definition date_only (cron_expr : string) : bool :=
  match PyStr.split cron_expr with
  | [_; _; day; month; weekday] =>
      Manage.is_star weekday
      && negb (Manage.is_star day && Manage.is_star month)
  | _ => false
  end.

(** A task with its [enabled] written out: the value that
    [task.get("enabled", True)] gives. *)
Definition effective_task (t : task) : task :=
  Webapp.set_enabled t (default true (t_enabled t)).

Definition name_matches (lower : string → string) (task_name : string)
    (t : task) : bool :=
  String.eqb (lower (default "" (t_name t))) (lower task_name).

(** * Properties *)

(** ** Strings *)

Lemma append_cons (a : ascii) (s1 s2 : string) :
  String a s1 +:+ s2 = String a (s1 +:+ s2).
Proof. reflexivity. Qed.

Lemma append_assoc (s1 s2 s3 : string) :
  (s1 +:+ s2) +:+ s3 = s1 +:+ (s2 +:+ s3).
Proof.
  induction s1 as [|a s1 IH]; [done|]. by rewrite !append_cons, IH.
Qed.

Lemma concat_app (l1 l2 : list string) :
  PyStr.concat (l1 ++ l2) = PyStr.concat l1 +:+ PyStr.concat l2.
Proof.
  induction l1 as [|x l1 IH]; simpl; [done|].
  by rewrite IH, append_assoc.
Qed.

Lemma append_nil_r (s : string) : s +:+ "" = s.
Proof. induction s as [|a s IH]; [done|]. by rewrite append_cons, IH. Qed.

Lemma append_length (s1 s2 : string) :
  String.length (s1 +:+ s2) = String.length s1 + String.length s2.
Proof.
  induction s1 as [|a s1 IH]; [done|]. rewrite append_cons. simpl.
  by rewrite IH.
Qed.

Lemma startswith_app (p r : string) : PyStr.startswith p (p +:+ r) = true.
Proof.
  unfold PyStr.startswith. induction p as [|a p IH].
  - by destruct r.
  - rewrite append_cons. simpl. by destruct (ascii_dec a a).
Qed.

Lemma drop_bytes_app (p r : string) :
  PyStr.drop_bytes (String.length p) (p +:+ r) = r.
Proof. induction p as [|a p IH]; [done|]. by rewrite append_cons. Qed.

Lemma startswith_inv (p s : string) :
  PyStr.startswith p s = true →
  s = p +:+ PyStr.drop_bytes (String.length p) s.
Proof.
  unfold PyStr.startswith. revert s.
  induction p as [|a p IH]; intros s; simpl; [done|].
  destruct s as [|b s]; simpl; [done|].
  destruct (ascii_dec a b) as [->|]; [|done].
  intros H. rewrite append_cons. f_equal. by apply IH.
Qed.

Lemma contains_unfold (needle hay : string) :
  PyStr.contains needle hay
  = PyStr.startswith needle hay
    || match hay with
       | String _ rest => PyStr.contains needle rest
       | EmptyString => false
       end.
Proof. by destruct hay. Qed.

(** [needle in hay] holds when [hay] is some text, [needle], some text. *)
Lemma contains_spec (needle hay : string) :
  PyStr.contains needle hay = true
  ↔ ∃ pre post : string, hay = pre +:+ needle +:+ post.
Proof.
  split.
  - induction hay as [|a hay IH]; rewrite contains_unfold;
      intros [Hp|Hc]%orb_true_iff; try discriminate.
    + exists "", (PyStr.drop_bytes (String.length needle) "").
      exact (startswith_inv _ _ Hp).
    + exists "", (PyStr.drop_bytes (String.length needle) (String a hay)).
      exact (startswith_inv _ _ Hp).
    + destruct (IH Hc) as (pre & post & ->). by exists (String a pre), post.
  - intros (pre & post & ->). induction pre as [|a pre IH].
    + change ("" +:+ needle +:+ post) with (needle +:+ post).
      rewrite contains_unfold. apply orb_true_iff; left.
      apply startswith_app.
    + rewrite append_cons, contains_unfold. apply orb_true_iff; right.
      exact IH.
Qed.

(** ** manage.py: the list command *)

(** For every configuration with tasks the list command returns 0 and
    prints the number of tasks and the numbers of enabled and disabled
    ones. *)
Lemma cmd_list_counts (cfg : config) (tasks : list task)
    (croniter : option (string → option string)) :
  c_tasks cfg = Some tasks → tasks ≠ [] →
  let r := Manage.cmd_list (Some cfg) croniter in
  r.1 = 0%Z
  ∧ In (Manage.Print (nl +:+ "任务总数: " +:+ pretty (length tasks) +:+ nl))
       r.2
  ∧ In (Manage.Print
          (nl +:+ "统计: " +:+ pretty (Manage.enabled_count tasks)
              +:+ " 个启用, "
              +:+ pretty (length tasks - Manage.enabled_count tasks)
              +:+ " 个禁用")) r.2.
Proof.
  intros Hts Hne. unfold Manage.cmd_list. rewrite Hts.
  destruct tasks as [|t tasks]; [done|]. cbn [default fst snd].
  split; [done|]. split.
  - apply in_or_app; right. apply in_or_app; left. by left.
  - do 3 (apply in_or_app; right). apply in_or_app; left. right. by left.
Qed.

(** C1 (counterexample): for the schedule [0 * * * *] the description is
    not the text 每小时. *)
Lemma parse_cron_hourly_counterexample :
  Manage.parse_cron "0 * * * *" ≠ "每小时".
Proof. vm_compute. discriminate. Qed.

(** C1 (amended): for the configuration with the single task [demo]
    (schedule [0 * * * *], script [x.py], enabled) and the global
    variable [A], the list command returns 0, prints the task count 1 and
    the statistics line with 1 enabled and 0 disabled, and prints the
    description 0分, which is what [parse_cron] gives for the schedule. *)
Theorem cmd_list_demo (croniter : option (string → option string)) :
  let r := Manage.cmd_list (Some demo_config) croniter in
  r.1 = 0%Z
  ∧ In (Manage.Print (nl +:+ "任务总数: 1" +:+ nl)) r.2
  ∧ Manage.enabled_count [demo_task] = 1
  ∧ In (Manage.Print (nl +:+ "统计: 1 个启用, 0 个禁用")) r.2
  ∧ Manage.parse_cron "0 * * * *" = "0分"
  ∧ In (Manage.Print "   说明: 0分") r.2.
Proof.
  destruct croniter as [next|]; vm_compute;
    repeat split; try destruct (next _); simpl; tauto.
Qed.

(** ** src/notify.py *)

(** C9: with an empty content [notify] starts no thread and only logs a
    warning, whatever [force] and the configuration are; it is the empty
    content that stops a forced message, since a forced message with a
    content starts a thread as soon as one channel is configured. *)
Theorem notify_empty_content (config : Notify.notify_config)
    (title log_content : string) (force : bool) (log_lines : Z) :
  Notify.notify config title "" force log_content log_lines
  = ([], [LogWarning ("推送内容为空，跳过: " +:+ title)])
  ∧ ∀ content : string,
      content ≠ "" →
      Notify._check_webhook_config config
      || Notify._check_ntfy_config config = true →
      (Notify.notify config title content true log_content log_lines).1
      ≠ [].
Proof.
  split; [reflexivity|].
  intros content Hc Hch. unfold Notify.notify.
  destruct content as [|a content]; [done|]. simpl.
  unfold Notify.dispatch.
  destruct (Notify._check_webhook_config config),
           (Notify._check_ntfy_config config); simpl; try discriminate.
Qed.

Lemma notify_empty_content_demo :
  (Notify.notify demo_notify_config "demo 执行失败" "" true "" 15).1 = []
  ∧ (Notify.notify demo_notify_config "demo 执行失败" "详情见日志"
       true "" 15).1 ≠ [].
Proof.
  destruct (notify_empty_content demo_notify_config "demo 执行失败" ""
              true 15) as [Hempty Hsent].
  split.
  - by rewrite Hempty.
  - apply Hsent; [discriminate | reflexivity].
Defined.



(** ** src/make_env.py *)

(** C7: two runs of [generate_env] on the same configuration, the second
    on top of the file left by the first, give the same bytes before and
    after the line that holds the time of generation; with equal times
    the two files are equal. *)
Theorem generate_env_idempotent (config_path env_file : string)
    (cfg : config) (stamp1 stamp2 : string) (old : option string) :
  let run1 :=
    MakeEnv.generate_env config_path env_file (Loaded cfg) stamp1 old in
  let run2 :=
    MakeEnv.generate_env config_path env_file (Loaded cfg) stamp2
      (g_file run1) in
  ∃ rest : string,
    g_file run1
    = Some (("# 自动生成的环境变量文件" +:+ nl)
            +:+ ("# 生成时间: " +:+ stamp1 +:+ nl) +:+ rest)
    ∧ g_file run2
      = Some (("# 自动生成的环境变量文件" +:+ nl)
              +:+ ("# 生成时间: " +:+ stamp2 +:+ nl) +:+ rest)
    ∧ (stamp1 = stamp2 → g_file run2 = g_file run1)
    ∧ g_ok run1 = true ∧ g_ok run2 = true.
Proof.
  simpl.
  exists (PyStr.concat
            ([("# 不要手动编辑此文件" +:+ nl) +:+ nl]
             ++ MakeEnv.global_writes cfg ++ MakeEnv.tasks_writes cfg)).
  unfold MakeEnv.env_writes, MakeEnv.header_writes.
  repeat split; try (intros ->; reflexivity).
Qed.

Lemma generate_env_idempotent_demo :
  g_file (MakeEnv.generate_env "config.yml" "/app/.env"
            (Loaded demo_env_config) "2026-01-01 00:00:00"
            (g_file (MakeEnv.generate_env "config.yml" "/app/.env"
                       (Loaded demo_env_config) "2026-01-01 00:00:00"
                       (Some "stale"))))
  = g_file (MakeEnv.generate_env "config.yml" "/app/.env"
              (Loaded demo_env_config) "2026-01-01 00:00:00"
              (Some "stale")).
Proof.
  destruct (generate_env_idempotent "config.yml" "/app/.env"
              demo_env_config "2026-01-01 00:00:00" "2026-01-01 00:00:00"
              (Some "stale")) as (rest & _ & _ & Hsame & _).
  apply Hsame. reflexivity.
Defined.

(** ** src/task_wrapper.py *)

(** What [setup_task_env] returns under a name is what the environment
    holds under the prefixed name. *)
Lemma setup_task_env_lookup (task_name key : string)
    (env : gmap string string) :
  TaskWrapper.setup_task_env task_name env !! key
  = env !! (task_name +:+ "_" +:+ key).
Proof.
  unfold TaskWrapper.setup_task_env. rewrite <-append_assoc.
  set (prefix := task_name +:+ "_").
  apply (map_fold_weak_ind
           (λ (r m : gmap string string),
              r !! key = m !! (prefix +:+ key))); [done|].
  intros i x m r Hi IH.
  destruct (PyStr.startswith prefix i) eqn:Hp.
  - apply startswith_inv in Hp.
    destruct (decide (PyStr.drop_bytes (String.length prefix) i = key))
      as [Hk|Hk].
    + rewrite Hk, lookup_insert_eq. rewrite Hk in Hp. subst i.
      by rewrite lookup_insert_eq.
    + rewrite !lookup_insert_ne; [done| |done].
      intros ->. by rewrite drop_bytes_app in Hk.
  - rewrite lookup_insert_ne; [done|].
    intros ->. by rewrite startswith_app in Hp.
Qed.

Lemma set_all_union (task_env env : gmap string string) :
  TaskWrapper.set_all task_env env = task_env ∪ env.
Proof.
  unfold TaskWrapper.set_all.
  apply (map_fold_weak_ind
           (λ (r m : gmap string string), r = m ∪ env)).
  - by rewrite (left_id_L ∅ (∪)).
  - intros i x m r _ ->. by rewrite insert_union_l.
Qed.

(** What is written for a task before one of its export lines ends with
    a line feed. *)
Lemma task_lines_end (comment name : string)
    (e1 : list (string * string)) :
  ∃ pre,
    PyStr.concat
      ([comment +:+ nl]
       ++ map (λ kv, MakeEnv.export_line (name +:+ "_" +:+ kv.1) kv.2) e1)
    = pre +:+ nl.
Proof.
  destruct e1 as [|x e1 _] using rev_ind.
  - exists comment. cbn [map app PyStr.concat foldr].
    by rewrite append_nil_r.
  - exists (PyStr.concat
              ([comment +:+ nl]
               ++ map (λ kv, MakeEnv.export_line
                               (name +:+ "_" +:+ kv.1) kv.2) e1)
            +:+ "export " +:+ (name +:+ "_" +:+ x.1) +:+ "=" +:+ dq
            +:+ MakeEnv.escape_quotes x.2 +:+ dq).
    rewrite map_app, app_assoc, concat_app.
    cbn [map PyStr.concat foldr]. unfold MakeEnv.export_line.
    by rewrite append_nil_r, !append_assoc.
Qed.

(** The text written by [generate_env] holds, at the start of a line, the
    export line of every variable of every task with a name. *)
Lemma export_line_in_file (cfg : config) (stamp : string)
    (tasks : list task) (t : task) (name : string)
    (env : list (string * string)) (key value : string) :
  c_tasks cfg = Some tasks → In t tasks →
  t_name t = Some name → name ≠ "" →
  t_env t = Some env → In (key, value) env →
  ∃ pre post,
    PyStr.concat (MakeEnv.env_writes cfg stamp)
    = pre +:+ nl +:+ MakeEnv.export_line (name +:+ "_" +:+ key) value
      +:+ post.
Proof.
  intros Hts Ht Hn Hne He Hkv.
  destruct (in_split _ _ Ht) as (l1 & l2 & ->).
  destruct (in_split _ _ Hkv) as (e1 & e2 & ->).
  set (line := λ kv : string * string,
         MakeEnv.export_line (name +:+ "_" +:+ kv.1) kv.2).
  set (comment := "# 任务: " +:+ name +:+ " ("
                  +:+ (if default true (t_enabled t) then "启用" else "禁用")
                  +:+ ")").
  assert (Htask : MakeEnv.task_writes t
                  = ([comment +:+ nl] ++ map line e1)
                    ++ [line (key, value)] ++ map line e2 ++ [nl]).
  { unfold MakeEnv.task_writes. rewrite Hn, He. cbn [default from_option id].
    destruct name as [|a name]; [done|]. cbn [PyStr.truthy negb].
    rewrite map_app. cbn [map]. subst comment.
    rewrite <-!app_assoc. cbn [app].
    apply (f_equal2 cons); [|done]. by rewrite !append_assoc. }
  destruct (task_lines_end comment name e1) as [pre Hpre].
  fold line in Hpre.
  exists (PyStr.concat
            (MakeEnv.header_writes stamp ++ MakeEnv.global_writes cfg
             ++ ["# 任务专属环境变量" +:+ nl]
             ++ flat_map MakeEnv.task_writes l1) +:+ pre),
         (PyStr.concat (map line e2 ++ [nl]
                        ++ flat_map MakeEnv.task_writes l2)).
  unfold MakeEnv.env_writes, MakeEnv.tasks_writes. rewrite Hts.
  replace (match l1 ++ t :: l2 with
           | [] => []
           | _ :: _ =>
               ["# 任务专属环境变量" +:+ nl]
               ++ flat_map MakeEnv.task_writes (l1 ++ t :: l2)
           end)
    with (["# 任务专属环境变量" +:+ nl]
          ++ flat_map MakeEnv.task_writes (l1 ++ t :: l2))
    by (by destruct l1).
  rewrite flat_map_app. cbn [flat_map]. rewrite Htask.
  rewrite concat_app in Hpre. rewrite !concat_app, Hpre.
  cbn [PyStr.concat foldr]. by rewrite ?append_nil_r, !append_assoc.
Qed.

(** C2 (counterexample): with both demo_FOO and demo_demo_FOO in the
    environment, the result of [setup_task_env] for the task [demo] has a
    demo_FOO key. *)
Lemma env_roundtrip_counterexample :
  let environ : gmap string string :=
    {[ "demo_FOO" := "bar"; "demo_demo_FOO" := "baz" ]} in
  environ !! "demo_FOO" = Some "bar"
  ∧ TaskWrapper.setup_task_env "demo" environ !! "FOO" = Some "bar"
  ∧ TaskWrapper.setup_task_env "demo" environ !! "demo_FOO" = Some "baz".
Proof. vm_compute. done. Qed.

(** C2 (amended): [generate_env] leaves an env file that holds, at the
    start of a line, the export line of the name of the task, an
    underscore and the key, for every variable [key: value] of a task
    with a name; [setup_task_env] returns under every key what the
    environment holds under the prefixed key (so a prefixed key is in its
    result exactly when the environment holds the key prefixed twice),
    and the wrapper sets the binding, unprefixed, in the environment the
    child inherits. *)
Theorem env_roundtrip (config_path env_file : string) (cfg : config)
    (stamp : string) (old : option string)
    (tasks : list task) (t : task) (name : string)
    (env : list (string * string)) (key value : string) :
  c_tasks cfg = Some tasks → In t tasks →
  t_name t = Some name → name ≠ "" →
  t_env t = Some env → In (key, value) env →
  (∃ pre post,
     g_file (MakeEnv.generate_env config_path env_file (Loaded cfg)
               stamp old)
     = Some (pre +:+ nl
             +:+ ("export " +:+ name +:+ "_" +:+ key +:+ "=" +:+ dq
                  +:+ MakeEnv.escape_quotes value +:+ dq +:+ nl)
             +:+ post))
  ∧ (∀ (environ : gmap string string) (k : string),
       TaskWrapper.setup_task_env name environ !! k
       = environ !! (name +:+ "_" +:+ k))
  ∧ (∀ w : TaskWrapper.world,
       TaskWrapper.loaded_environ w !! (name +:+ "_" +:+ key) = Some value →
       TaskWrapper.child_environ w name !! key = Some value).
Proof.
  intros Hts Ht Hn Hne He Hkv. split; [|split].
  - destruct (export_line_in_file cfg stamp tasks t name env key value)
      as (pre & post & Hfile); try done.
    exists pre, post. cbn [MakeEnv.generate_env g_file]. rewrite Hfile.
    unfold MakeEnv.export_line. by rewrite !append_assoc.
  - intros environ k. apply setup_task_env_lookup.
  - intros w Hw. unfold TaskWrapper.child_environ.
    rewrite set_all_union. apply lookup_union_Some_l.
    by rewrite setup_task_env_lookup.
Qed.

Lemma env_roundtrip_demo :
  (∃ pre post,
     g_file (MakeEnv.generate_env "config.yml" "/app/.env"
               (Loaded demo_env_config) "2026-01-01 00:00:00" None)
     = Some (pre +:+ nl
             +:+ ("export demo_FOO=" +:+ dq +:+ "bar" +:+ dq +:+ nl)
             +:+ post))
  ∧ (∀ environ : gmap string string,
       environ !! "demo_FOO" = Some "bar" →
       TaskWrapper.setup_task_env "demo" environ !! "FOO" = Some "bar"
       ∧ TaskWrapper.setup_task_env "demo" environ !! "demo_FOO"
         = environ !! "demo_demo_FOO")
  ∧ TaskWrapper.child_environ demo_world "demo" !! "FOO" = Some "bar".
Proof.
  destruct (env_roundtrip "config.yml" "/app/.env" demo_env_config
              "2026-01-01 00:00:00" None
              [demo_env_task] demo_env_task "demo" [("FOO", "bar")]
              "FOO" "bar")
    as (Hline & Hsetup & Hchild);
    [reflexivity | left; reflexivity | reflexivity | discriminate
    | reflexivity | left; reflexivity | ].
  split; [exact Hline|]. split.
  - intros environ Henv. split.
    + rewrite (Hsetup environ "FOO"). exact Henv.
    + exact (Hsetup environ "demo_FOO").
  - apply (Hchild demo_world). vm_compute. reflexivity.
Defined.

(** The env file written for the demo configuration, read back by the
    wrapper, gives the child the unprefixed variable, and
    [setup_task_env] returns that binding alone. *)
Example env_file_roundtrip_demo :
  let file :=
    g_file (MakeEnv.generate_env "config.yml" "/app/.env"
              (Loaded demo_env_config) "2026-01-01 00:00:00" None) in
  let env := TaskWrapper.load_env_file file ∅ in
  env !! "demo_FOO" = Some "bar"
  ∧ env !! "A" = Some "1"
  ∧ map_to_list (TaskWrapper.setup_task_env "demo" env) = [("FOO", "bar")].
Proof. vm_compute. done. Qed.


(** [main] on a child that was started: it ends with the child's code
    when the output was read to the end, with the exception of the read
    loop otherwise. *)
Lemma main_started (py_int : string → option Z) (w : TaskWrapper.world)
    (prog task_name script_path : string) (script_args : list string)
    (ch : TaskWrapper.child) :
  TaskWrapper.loaded_environ w !! (task_name +:+ "_") = None →
  TaskWrapper.w_popen w (TaskWrapper.child_cmd script_path script_args)
    (TaskWrapper.child_environ w task_name) = Some ch →
  TaskWrapper.r_outcome
    (TaskWrapper.main py_int w
       (prog :: task_name :: script_path :: script_args))
  = match ch with
    | TaskWrapper.Finished _ c => TaskWrapper.Exit c
    | TaskWrapper.ReadFailed _ => TaskWrapper.Uncaught
    end.
Proof.
  intros Hprefix Hpopen. unfold TaskWrapper.main.
  rewrite setup_task_env_lookup, append_nil_r, Hprefix.
  unfold TaskWrapper.child_environ in Hpopen. rewrite Hpopen.
  by destruct ch.
Qed.

(** C3 (counterexample): the child is started and its output cannot be
    read past the first line; whatever the code of the child, the wrapper
    ends with the exception of the read loop and not with [sys.exit]. *)
Lemma wrapper_exit_code_counterexample :
  let w :=
    TaskWrapper.World None ∅
      (λ _ _, Some (TaskWrapper.ReadFailed ["a" +:+ nl]))
      true (λ _, false) in
  TaskWrapper.main TaskWrapper.decimal_int w demo_argv
  = TaskWrapper.Run TaskWrapper.Uncaught None ["a"] [].
Proof. vm_compute. done. Qed.

(** C3 (amended): when no variable is named by the prefix alone and the
    child started by [Popen] on the command of the script, with the
    environment of the wrapper, exits with [c] after its output was read
    to the end, the wrapper ends with [sys.exit(c)], whether the notifier
    is present or not and whether running it raises or not.  When reading
    the output raises, the wrapper ends with that exception, with any
    notifier. *)
Theorem wrapper_exit_code (py_int : string → option Z)
    (w : TaskWrapper.world) (prog task_name script_path : string)
    (script_args : list string) (ch : TaskWrapper.child) :
  TaskWrapper.loaded_environ w !! (task_name +:+ "_") = None →
  TaskWrapper.w_popen w (TaskWrapper.child_cmd script_path script_args)
    (TaskWrapper.child_environ w task_name) = Some ch →
  ∀ (present : bool) (raises : list string → bool),
    TaskWrapper.r_outcome
      (TaskWrapper.main py_int (with_notifier w present raises)
         (prog :: task_name :: script_path :: script_args))
    = match ch with
      | TaskWrapper.Finished _ c => TaskWrapper.Exit c
      | TaskWrapper.ReadFailed _ => TaskWrapper.Uncaught
      end.
Proof.
  intros Hprefix Hpopen present raises.
  by apply main_started.
Qed.

Lemma wrapper_exit_code_demo :
  TaskWrapper.r_outcome
    (TaskWrapper.main TaskWrapper.decimal_int
       (with_notifier demo_world true (λ _, false)) demo_argv)
  = TaskWrapper.Exit 1
  ∧ TaskWrapper.r_outcome
      (TaskWrapper.main TaskWrapper.decimal_int
         (with_notifier demo_world true (λ _, true)) demo_argv)
    = TaskWrapper.Exit 1
  ∧ TaskWrapper.r_outcome
      (TaskWrapper.main TaskWrapper.decimal_int
         (with_notifier demo_world false (λ _, false)) demo_argv)
    = TaskWrapper.Exit 1.
Proof.
  pose proof (wrapper_exit_code TaskWrapper.decimal_int demo_world
                "task_wrapper.py" "demo" "x.py" []
                (TaskWrapper.Finished ["a" +:+ nl; "b" +:+ nl; "c"] 1)) as H.
  assert (Hprefix : TaskWrapper.loaded_environ demo_world !! "demo_" = None)
    by (vm_compute; reflexivity).
  specialize (H Hprefix eq_refl).
  split; [exact (H true (λ _, false))|].
  split; [exact (H true (λ _, true)) | exact (H false (λ _, false))].
Defined.



(** With LOG_LINES set to 0 the slice [output_lines[-0:]] is the whole
    list: the notifier receives every captured line. *)
Example log_lines_zero_keeps_all :
  TaskWrapper.r_notified
    (TaskWrapper.main TaskWrapper.decimal_int
       (with_environ demo_world {[ "LOG_LINES" := "0" ]}) demo_argv)
  = [["python3"; "/app/notify.py"; "demo 执行失败"; "详情见日志";
      "--log-content"; "a" +:+ nl +:+ "b" +:+ nl +:+ "c";
      "--log-lines"; "0"]].
Proof. vm_compute. done. Qed.



(** ** src/make_cron.py *)

Lemma cron_step_entry (path_exists : string → bool)
    (written : list string) (log : list log_entry) (t : task) :
  MakeCron.cron_step path_exists (written, log) t
  = (written ++ (task_entry path_exists t).1,
     log ++ (task_entry path_exists t).2).
Proof.
  unfold task_entry, MakeCron.cron_step.
  destruct (MakeCron.task_enabled t); simpl.
  - destruct (PyStr.truthy _); simpl; [|by rewrite app_nil_r].
    destruct (path_exists (default "" (t_script t))); simpl;
      by rewrite ?app_nil_r.
  - by rewrite app_nil_r.
Qed.

Lemma cron_fold (path_exists : string → bool) (tasks : list task)
    (written : list string) (log : list log_entry) :
  fold_left (MakeCron.cron_step path_exists) tasks (written, log)
  = (written ++ entries path_exists tasks,
     log ++ entry_logs path_exists tasks).
Proof.
  revert written log. induction tasks as [|t tasks IH]; intros.
  - simpl. by rewrite !app_nil_r.
  - cbn [fold_left]. rewrite cron_step_entry, IH.
    unfold entries, entry_logs. cbn [flat_map].
    by rewrite !app_assoc.
Qed.

Lemma cron_writes_tasks (path_exists : string → bool) (cfg : config)
    (tasks : list task) :
  c_tasks cfg = Some tasks → tasks ≠ [] →
  MakeCron.cron_writes path_exists cfg
  = ([MakeCron.header] ++ entries path_exists tasks ++ [nl],
     entry_logs path_exists tasks).
Proof.
  intros Hts Hne. unfold MakeCron.cron_writes. rewrite Hts.
  destruct tasks as [|t tasks]; [done|].
  rewrite cron_fold. by rewrite <-app_assoc.
Qed.

Lemma generate_cron_file (config_path cron_file : string) (cfg : config)
    (path_exists : string → bool) (old : option string) :
  let g := MakeCron.generate_cron config_path cron_file (Loaded cfg)
             path_exists old in
  g_ok g = true
  ∧ g_file g
    = Some (default "" old
            +:+ PyStr.concat (MakeCron.cron_writes path_exists cfg).1)
  ∧ g_log g = (MakeCron.cron_writes path_exists cfg).2.
Proof.
  unfold MakeCron.generate_cron.
  by destruct (MakeCron.cron_writes path_exists cfg).
Qed.

Lemma entries_without (path_exists : string → bool)
    (before after : list task) (t : task) :
  (task_entry path_exists t).1 = [] →
  entries path_exists (before ++ t :: after)
  = entries path_exists (before ++ after).
Proof.
  intros Ht. unfold entries. rewrite !flat_map_app. simpl. by rewrite Ht.
Qed.

(** What a skipped task leaves in the file: nothing, so that the file is
    the one written for the other tasks. *)
Lemma skipped_task_file (config_path cron_file : string) (cfg : config)
    (path_exists : string → bool) (old : option string)
    (before after : list task) (t : task) :
  c_tasks cfg = Some (before ++ t :: after) →
  (task_entry path_exists t).1 = [] →
  let g := MakeCron.generate_cron config_path cron_file (Loaded cfg)
             path_exists old in
  g_file g
  = Some (default "" old
          +:+ PyStr.concat ([MakeCron.header]
                            ++ entries path_exists (before ++ after)
                            ++ [nl]))
  ∧ (before ++ after ≠ [] →
     g_file g
     = g_file (MakeCron.generate_cron config_path cron_file
                 (Loaded (with_tasks cfg (before ++ after)))
                 path_exists old))
  ∧ g_log g
    = entry_logs path_exists before ++ (task_entry path_exists t).2
      ++ entry_logs path_exists after
  ∧ g_ok g = true.
Proof.
  intros Hts Ht g.
  destruct (generate_cron_file config_path cron_file cfg path_exists old)
    as (Hok & Hfile & Hlog). fold g in Hok, Hfile, Hlog.
  assert (Hw : MakeCron.cron_writes path_exists cfg
               = ([MakeCron.header]
                  ++ entries path_exists (before ++ after) ++ [nl],
                  entry_logs path_exists (before ++ t :: after))).
  { rewrite (cron_writes_tasks _ _ _ Hts); [|by destruct before].
    by rewrite entries_without. }
  rewrite Hw in Hfile, Hlog. simpl in Hfile, Hlog.
  split; [exact Hfile|]. split; [|split; [|exact Hok]].
  - intros Hne. rewrite Hfile.
    destruct (generate_cron_file config_path cron_file
                (with_tasks cfg (before ++ after)) path_exists old)
      as (_ & -> & _).
    by rewrite (cron_writes_tasks _ _ (before ++ after)).
  - rewrite Hlog. unfold entry_logs. by rewrite flat_map_app.
Qed.

(** C5: a task with [enabled: false] adds nothing to the cron file and
    one line to the log, the one that names it as disabled: the file is
    the old content, the header, the entries of the other tasks and the
    closing empty line, which is the file generated without the task
    when other tasks remain. *)
Theorem disabled_task_omitted (config_path cron_file : string)
    (cfg : config) (path_exists : string → bool) (old : option string)
    (before after : list task) (t : task) :
  c_tasks cfg = Some (before ++ t :: after) →
  t_enabled t = Some false →
  let g := MakeCron.generate_cron config_path cron_file (Loaded cfg)
             path_exists old in
  task_entry path_exists t
  = ([], [LogInfo ("禁用任务: " +:+ default "未命名任务" (t_name t))])
  ∧ g_file g
    = Some (default "" old
            +:+ PyStr.concat ([MakeCron.header]
                              ++ entries path_exists (before ++ after)
                              ++ [nl]))
  ∧ (before ++ after ≠ [] →
     g_file g
     = g_file (MakeCron.generate_cron config_path cron_file
                 (Loaded (with_tasks cfg (before ++ after)))
                 path_exists old))
  ∧ g_log g
    = entry_logs path_exists before
      ++ [LogInfo ("禁用任务: " +:+ default "未命名任务" (t_name t))]
      ++ entry_logs path_exists after
  ∧ g_ok g = true.
Proof.
  intros Hts Hoff g.
  assert (Ht : task_entry path_exists t
               = ([], [LogInfo ("禁用任务: "
                                +:+ default "未命名任务" (t_name t))])).
  { unfold task_entry, MakeCron.cron_step, MakeCron.task_enabled.
    by rewrite Hoff. }
  split; [exact Ht|].
  destruct (skipped_task_file config_path cron_file cfg path_exists old
              before after t Hts) as (Hfile & Hsame & Hlog & Hok).
  { by rewrite Ht. }
  rewrite Ht in Hlog. done.
Qed.

Lemma disabled_task_omitted_demo :
  g_file (MakeCron.generate_cron "config.yml" "/tmp/crontab"
            (Loaded three_tasks) demo_exists None)
  = g_file (MakeCron.generate_cron "config.yml" "/tmp/crontab"
              (Loaded (with_tasks three_tasks [lost_task; demo_task]))
              demo_exists None).
Proof.
  destruct (disabled_task_omitted "config.yml" "/tmp/crontab" three_tasks
              demo_exists None [lost_task] [demo_task] disabled_task)
    as (_ & _ & Hsame & _); [reflexivity | reflexivity |].
  apply Hsame. discriminate.
Defined.

(** C6: a task whose script is empty or is not on disk adds nothing to
    the cron file; the other tasks get the entries they get without it,
    the task itself a warning when it is enabled, and the generation
    returns [True]. *)
Theorem missing_script_skipped (config_path cron_file : string)
    (cfg : config) (path_exists : string → bool) (old : option string)
    (before after : list task) (t : task) :
  c_tasks cfg = Some (before ++ t :: after) →
  default "" (t_script t) = ""
  ∨ path_exists (default "" (t_script t)) = false →
  let g := MakeCron.generate_cron config_path cron_file (Loaded cfg)
             path_exists old in
  (task_entry path_exists t).1 = []
  ∧ g_file g
    = Some (default "" old
            +:+ PyStr.concat ([MakeCron.header]
                              ++ entries path_exists (before ++ after)
                              ++ [nl]))
  ∧ (before ++ after ≠ [] →
     g_file g
     = g_file (MakeCron.generate_cron config_path cron_file
                 (Loaded (with_tasks cfg (before ++ after)))
                 path_exists old))
  ∧ g_log g
    = entry_logs path_exists before ++ (task_entry path_exists t).2
      ++ entry_logs path_exists after
  ∧ (MakeCron.task_enabled t = true →
     ∃ reason : string,
       (task_entry path_exists t).2
       = [LogWarning ("跳过任务 " +:+ default "未命名任务" (t_name t)
                      +:+ reason)])
  ∧ g_ok g = true.
Proof.
  intros Hts Hscript g.
  assert (Ht : (task_entry path_exists t).1 = []).
  { unfold task_entry, MakeCron.cron_step.
    destruct (MakeCron.task_enabled t); [|done]. simpl.
    destruct Hscript as [-> | Hmiss]; [done|].
    rewrite Hmiss. by destruct (PyStr.truthy _). }
  split; [exact Ht|].
  destruct (skipped_task_file config_path cron_file cfg path_exists old
              before after t Hts Ht) as (Hfile & Hsame & Hlog & Hok).
  repeat split; try done.
  intros Hon. unfold task_entry, MakeCron.cron_step. rewrite Hon. simpl.
  destruct Hscript as [-> | Hmiss]; simpl; [by eexists|].
  rewrite Hmiss. destruct (PyStr.truthy _); simpl; by eexists.
Qed.

Lemma missing_script_skipped_demo :
  g_file (MakeCron.generate_cron "config.yml" "/tmp/crontab"
            (Loaded three_tasks) demo_exists None)
  = g_file (MakeCron.generate_cron "config.yml" "/tmp/crontab"
              (Loaded (with_tasks three_tasks [disabled_task; demo_task]))
              demo_exists None)
  ∧ g_ok (MakeCron.generate_cron "config.yml" "/tmp/crontab"
            (Loaded three_tasks) demo_exists None) = true.
Proof.
  destruct (missing_script_skipped "config.yml" "/tmp/crontab" three_tasks
              demo_exists None [] [disabled_task; demo_task] lost_task)
    as (_ & _ & Hsame & _ & _ & Hok);
    [reflexivity | right; reflexivity |].
  split; [apply Hsame; discriminate | exact Hok].
Defined.

Lemma entries_runnable (path_exists : string → bool) (tasks : list task) :
  entries path_exists tasks
  = flat_map (cron_entry path_exists)
      (List.filter (runnable path_exists) tasks).
Proof.
  unfold entries. induction tasks as [|t tasks IH]; [done|].
  cbn [flat_map List.filter]. rewrite IH. f_equal.
  unfold runnable, task_entry, MakeCron.cron_step, cron_entry.
  destruct (MakeCron.task_enabled t); simpl; [|done].
  destruct (PyStr.truthy _); simpl; [|done].
  destruct (path_exists (default "" (t_script t))); [|done].
  unfold MakeCron.entry_writes, MakeCron.cron_line. simpl.
  destruct (path_exists "/app/task_wrapper.py");
    by rewrite ?append_assoc.
Qed.

Lemma cron_writes_block (path_exists : string → bool) (cfg : config) :
  (MakeCron.cron_writes path_exists cfg).1 = cron_block path_exists cfg.
Proof.
  unfold cron_block.
  destruct (c_tasks cfg) as [[|t tasks]|] eqn:Hts;
    try (unfold MakeCron.cron_writes; by rewrite Hts).
  rewrite (cron_writes_tasks path_exists cfg (t :: tasks) Hts);
    [|done].
  cbn [fst]. by rewrite entries_runnable.
Qed.

(** C10 (counterexample): of the three tasks two are enabled; the script
    of one of them is not on disk, and the run appends the header, the
    entry of the other one and the closing empty line. *)
Lemma generate_cron_appends_counterexample :
  List.filter MakeCron.task_enabled [lost_task; disabled_task; demo_task]
  = [lost_task; demo_task]
  ∧ g_file (MakeCron.generate_cron "config.yml" "/tmp/crontab"
              (Loaded three_tasks) demo_exists (Some ("MAILTO=x" +:+ nl)))
    = Some ("MAILTO=x" +:+ nl
            +:+ "# 定时任务定义" +:+ nl
            +:+ "# 任务: demo" +:+ nl
            +:+ "0 * * * * cd /app && . /app/.env 2>/dev/null; python3 /app/task_wrapper.py 'demo' 'x.py' >> /proc/1/fd/1 2>&1"
            +:+ nl +:+ nl +:+ nl).
Proof. vm_compute. done. Qed.

(** C10 (amended): [generate_cron] keeps what the cron file held and
    puts one block after it: the header and, when the configuration has
    tasks, the comment, the cron line and an empty line of every enabled
    task whose script is configured and exists, in order, then an empty
    line.  A second run on the same configuration puts the same block
    once more, so the file is not the one left by the first run;
    [generate_env] leaves a file that does not depend on what the env
    file held. *)
Theorem generate_cron_appends (config_path cron_file : string)
    (cfg : config) (path_exists : string → bool) (old : option string) :
  let run1 := MakeCron.generate_cron config_path cron_file (Loaded cfg)
                path_exists old in
  let run2 := MakeCron.generate_cron config_path cron_file (Loaded cfg)
                path_exists (g_file run1) in
  let block := PyStr.concat (cron_block path_exists cfg) in
  g_file run1 = Some (default "" old +:+ block)
  ∧ g_file run2 = Some (default "" old +:+ block +:+ block)
  ∧ (∃ rest : string, block = "# 定时任务定义" +:+ nl +:+ rest)
  ∧ g_file run2 ≠ g_file run1
  ∧ (∀ env_file stamp : string,
       g_file (MakeEnv.generate_env config_path env_file (Loaded cfg)
                 stamp
                 (g_file (MakeEnv.generate_env config_path env_file
                            (Loaded cfg) stamp old)))
       = g_file (MakeEnv.generate_env config_path env_file (Loaded cfg)
                   stamp old))
  ∧ (∀ (env_file stamp : string) (held : option string),
       g_file (MakeEnv.generate_env config_path env_file (Loaded cfg)
                 stamp held)
       = Some (PyStr.concat (MakeEnv.env_writes cfg stamp))).
Proof.
  intros run1 run2 block.
  destruct (generate_cron_file config_path cron_file cfg path_exists old)
    as (_ & Hfile1 & _). fold run1 in Hfile1.
  destruct (generate_cron_file config_path cron_file cfg path_exists
              (g_file run1)) as (_ & Hfile2 & _).
  fold run2 in Hfile2. rewrite cron_writes_block in Hfile1, Hfile2.
  fold block in Hfile1, Hfile2.
  rewrite Hfile1 in Hfile2. simpl in Hfile2.
  rewrite append_assoc in Hfile2.
  assert (Hblock : ∃ rest, block = "# 定时任务定义" +:+ nl +:+ rest).
  { unfold block, cron_block.
    destruct (c_tasks cfg) as [[|t tasks]|];
      cbn [app PyStr.concat foldr]; rewrite ?append_assoc; by eexists. }
  split; [exact Hfile1|]. split; [exact Hfile2|].
  split; [exact Hblock|]. split; [|split; done].
  destruct Hblock as [rest Hblock].
  rewrite Hfile1, Hfile2. intros [= Heq].
  apply (inj (String.append (default "" old))) in Heq.
  apply (f_equal String.length) in Heq.
  rewrite append_length, Hblock, append_length in Heq.
  assert (0 < String.length "# 定时任务定义") by (vm_compute; lia). lia.
Qed.

Lemma generate_cron_appends_demo :
  let file1 :=
    g_file (MakeCron.generate_cron "config.yml" "/tmp/crontab"
              (Loaded three_tasks) demo_exists (Some ("MAILTO=x" +:+ nl))) in
  let file2 :=
    g_file (MakeCron.generate_cron "config.yml" "/tmp/crontab"
              (Loaded three_tasks) demo_exists file1) in
  let block :=
    "# 定时任务定义" +:+ nl
    +:+ "# 任务: demo" +:+ nl
    +:+ "0 * * * * cd /app && . /app/.env 2>/dev/null; python3 /app/task_wrapper.py 'demo' 'x.py' >> /proc/1/fd/1 2>&1"
    +:+ nl +:+ nl +:+ nl in
  file1 = Some ("MAILTO=x" +:+ nl +:+ block)
  ∧ file2 = Some ("MAILTO=x" +:+ nl +:+ block +:+ block)
  ∧ file2 ≠ file1.
Proof.
  destruct (generate_cron_appends "config.yml" "/tmp/crontab" three_tasks
              demo_exists (Some ("MAILTO=x" +:+ nl)))
    as (Hfile1 & Hfile2 & _ & Hdiff & _).
  split; [exact Hfile1|]. split; [exact Hfile2 | exact Hdiff].
Defined.

(** * Further properties *)

(** ** The env file written by make_env.py and read by task_wrapper.py *)

Lemma byte_is_true (n : N) (a : ascii) :
  PyStr.byte_is n a = true → a = ascii_of_N n.
Proof.
  unfold PyStr.byte_is. intros H%N.eqb_eq. rewrite <-H.
  by rewrite ascii_N_embedding.
Qed.

Lemma escape_not_quote_first (s : string) :
  TaskWrapper.first_byte_is 34 (MakeEnv.escape_quotes s) = false.
Proof.
  destruct s as [|a s]; [done|]. simpl.
  destruct (PyStr.byte_is 34 a) eqn:Ha; [done|]. simpl. exact Ha.
Qed.

Lemma unescape_escape (value : string) :
  TaskWrapper.unescape_quotes (MakeEnv.escape_quotes value) false = value.
Proof.
  induction value as [|a value IH]; [done|]. simpl.
  destruct (PyStr.byte_is 34 a) eqn:Ha.
  - apply byte_is_true in Ha. subst a.
    change (TaskWrapper.unescape_quotes
              (String "092" (String "034" (MakeEnv.escape_quotes value)))
              false = String "034" value).
    simpl. by rewrite IH.
  - simpl. rewrite escape_not_quote_first, andb_false_r. by rewrite IH.
Qed.

Lemma ascii_plain_facts (a : ascii) :
  ascii_plain a = true →
  PyStr.byte_in 9 13 a || PyStr.byte_in 28 32 a = false
  ∧ (∀ n : N, (128 ≤ n)%N → PyStr.byte_is n a = false)
  ∧ (∀ lo hi : N, (128 ≤ lo)%N → PyStr.byte_in lo hi a = false).
Proof.
  unfold ascii_plain. intros [Hlt Hsp%negb_true_iff]%andb_true_iff.
  apply N.ltb_lt in Hlt. split; [exact Hsp|]. split.
  - intros n Hn. unfold PyStr.byte_is. apply N.eqb_neq. lia.
  - intros lo hi Hlo. unfold PyStr.byte_in.
    apply andb_false_iff; left. apply N.leb_gt. lia.
Qed.

Lemma space_width_plain (a : ascii) (rest : string) :
  ascii_plain a = true → PyStr.space_width (String a rest) = 0.
Proof.
  intros (Hsp & His & _)%ascii_plain_facts. unfold PyStr.space_width.
  rewrite Hsp, !His by lia. by destruct rest as [|b [|c rest]].
Qed.

Lemma space_width_le (s : string) :
  PyStr.space_width s ≤ String.length s.
Proof.
  unfold PyStr.space_width.
  destruct s as [|a [|b [|c s]]]; simpl; repeat case_match; lia.
Qed.

Lemma space_width_le3 (s : string) : PyStr.space_width s ≤ 3.
Proof.
  unfold PyStr.space_width.
  destruct s as [|a [|b [|c s]]]; simpl; repeat case_match; lia.
Qed.

Lemma space_width_before_plain (a q : ascii) (body : string) :
  ascii_plain q = true →
  PyStr.space_width (String a (body +:+ String q "")) ≤ S (String.length body).
Proof.
  intros (_ & His & Hin)%ascii_plain_facts.
  destruct body as [|b [|c body]].
  - unfold PyStr.space_width. simpl. rewrite !His by lia. simpl.
    repeat case_match; lia.
  - unfold PyStr.space_width. simpl. rewrite !His, !Hin by lia. simpl.
    rewrite ?andb_false_r. repeat case_match; lia.
  - etrans; [apply space_width_le3|]. simpl. lia.
Qed.

(** The pieces of a text, put together, are the text. *)
Lemma pieces_concat (s cur : string) (skip : nat) :
  skip ≤ String.length s → (skip = 0 → cur = "") →
  PyStr.concat (map snd (TaskWrapper.pieces s skip cur)) = cur +:+ s.
Proof.
  revert skip cur. induction s as [|a s IH]; intros skip cur Hlen Hcur.
  - simpl in Hlen. assert (skip = 0) as -> by lia. by rewrite Hcur.
  - simpl in Hlen. cbn [TaskWrapper.pieces].
    destruct skip as [|[|k]].
    + rewrite Hcur by done.
      pose proof (space_width_le (String a s)) as Hw.
      change (String.length (String a s)) with (S (String.length s)) in Hw.
      destruct (PyStr.space_width (String a s)) as [|[|k]].
      * cbn [map snd PyStr.concat foldr]. by rewrite IH by (done || lia).
      * cbn [map snd PyStr.concat foldr]. by rewrite IH by (done || lia).
      * rewrite IH by (done || lia). done.
    + cbn [map snd PyStr.concat foldr]. rewrite IH by (done || lia).
      by rewrite append_assoc.
    + rewrite IH by (done || lia). by rewrite append_assoc.
Qed.

Lemma pieces_last (q : ascii) (body cur : string) (skip : nat) :
  ascii_plain q = true → skip ≤ String.length body →
  ∃ front : list (bool * string),
    TaskWrapper.pieces (body +:+ String q "") skip cur
    = front ++ [(false, String q "")].
Proof.
  intros Hq. revert skip cur.
  induction body as [|a body IH]; intros skip cur Hlen.
  - simpl in Hlen. assert (skip = 0) as -> by lia.
    exists []. change ("" +:+ String q "") with (String q "").
    cbn [TaskWrapper.pieces]. by rewrite space_width_plain.
  - simpl in Hlen. rewrite append_cons. cbn [TaskWrapper.pieces].
    destruct skip as [|[|k]].
    + pose proof (space_width_before_plain a q body Hq) as Hw.
      destruct (PyStr.space_width (String a (body +:+ String q "")))
        as [|[|k]].
      * destruct (IH 0 "") as [front ->]; [lia|]. by eexists (_ :: _).
      * destruct (IH 0 "") as [front ->]; [lia|]. by eexists (_ :: _).
      * apply IH. lia.
    + destruct (IH 0 "") as [front ->]; [lia|]. by eexists (_ :: _).
    + apply IH. lia.
Qed.

Lemma drop_spaces_snoc (l : list (bool * string)) (x : bool * string) :
  x.1 = false →
  ∃ l', TaskWrapper.drop_spaces (l ++ [x]) = l' ++ [x].
Proof.
  intros Hx. induction l as [|[[] s] l IH].
  - exists []. destruct x as [[] ?]; [done|]. done.
  - exact IH.
  - by exists ((false, s) :: l).
Qed.

(** [strip] keeps a text that starts and ends with an ASCII byte other
    than white space. *)
Lemma strip_id (a q : ascii) (body : string) :
  ascii_plain a = true → ascii_plain q = true →
  TaskWrapper.strip (String a (body +:+ String q ""))
  = String a (body +:+ String q "").
Proof.
  intros Ha Hq. unfold TaskWrapper.strip.
  pose proof (pieces_concat (String a (body +:+ String q "")) "" 0) as Hc.
  cbn [TaskWrapper.pieces] in *. rewrite space_width_plain in * by done.
  destruct (pieces_last q body "" 0 Hq) as [front Hf]; [lia|].
  rewrite Hf in *. cbn [TaskWrapper.drop_spaces].
  rewrite app_comm_cons, rev_app_distr. cbn [rev app TaskWrapper.drop_spaces].
  rewrite rev_app_distr, rev_involutive. cbn [rev app].
  apply Hc; [simpl; lia | done].
Qed.

(** [strip] keeps the first byte of a text that starts with an ASCII byte
    other than white space. *)
Lemma strip_head (a : ascii) (rest : string) :
  ascii_plain a = true →
  ∃ rest', TaskWrapper.strip (String a rest) = String a rest'.
Proof.
  intros Ha. unfold TaskWrapper.strip. cbn [TaskWrapper.pieces].
  rewrite space_width_plain by done. cbn [TaskWrapper.drop_spaces rev].
  destruct (drop_spaces_snoc (rev (TaskWrapper.pieces rest 0 ""))
              (false, String a "")) as [l' ->]; [done|].
  rewrite rev_app_distr. cbn [rev app map snd PyStr.concat foldr].
  by eexists.
Qed.

Lemma rev_app_app (s1 s2 acc : string) :
  String.rev_app (s1 +:+ s2) acc = String.rev_app s2 (String.rev_app s1 acc).
Proof.
  revert acc. induction s1 as [|a s1 IH]; intros acc; [done|].
  rewrite append_cons. simpl. apply IH.
Qed.

Lemma rev_app_rev_app (s acc acc' : string) :
  String.rev_app (String.rev_app s acc) acc'
  = String.rev_app acc (s +:+ acc').
Proof.
  revert acc acc'. induction s as [|a s IH]; intros acc acc'; [done|].
  simpl. rewrite IH. by rewrite append_cons.
Qed.

Lemma rev_snoc (s : string) (q : ascii) :
  String.rev (s +:+ String q "") = String q (String.rev s).
Proof. unfold String.rev. by rewrite rev_app_app. Qed.

Lemma rev_rev (s : string) : String.rev (String.rev s) = s.
Proof.
  unfold String.rev. rewrite rev_app_rev_app. simpl. apply append_nil_r.
Qed.

Lemma strip_ends_quoted (q1 q2 : ascii) (s : string) :
  TaskWrapper.strip_ends (String q1 (s +:+ String q2 "")) = s.
Proof.
  destruct s as [|a s]; [done|].
  unfold TaskWrapper.strip_ends. rewrite append_cons.
  cbn [PyStr.drop_bytes]. rewrite <-append_cons, rev_snoc.
  cbn [PyStr.drop_bytes]. apply rev_rev.
Qed.

Lemma last_byte_snoc (n : N) (s : string) (q : ascii) :
  TaskWrapper.last_byte_is n (s +:+ String q "") = PyStr.byte_is n q.
Proof. unfold TaskWrapper.last_byte_is. by rewrite rev_snoc. Qed.

Lemma split_eq_key (key rest acc : string) :
  PyStr.contains "=" key = false →
  TaskWrapper.split_eq (key +:+ String "=" rest) acc
  = Some (acc +:+ key, rest).
Proof.
  revert acc. induction key as [|a key IH]; intros acc Hk.
  - simpl. by rewrite append_nil_r.
  - rewrite contains_unfold in Hk.
    apply orb_false_iff in Hk as [Ha Hk].
    rewrite append_cons. cbn [TaskWrapper.split_eq].
    destruct (PyStr.byte_is 61 a) eqn:Heq.
    + apply byte_is_true in Heq. subst a. by destruct key.
    + rewrite IH by done. by rewrite append_assoc.
Qed.

(** A line that starts with the hash sign changes nothing. *)
Lemma load_line_comment (rest : string) (env : gmap string string) :
  TaskWrapper.load_line (String "#" rest) env = Some env.
Proof.
  unfold TaskWrapper.load_line.
  destruct (strip_head "#" rest) as [rest' ->]; [done|].
  cbn [PyStr.truthy negb orb]. unfold PyStr.startswith.
  by destruct rest'.
Qed.

Lemma last_byte_quoted (n : N) (q1 q2 : ascii) (s : string) :
  TaskWrapper.last_byte_is n (String q1 (s +:+ String q2 ""))
  = PyStr.byte_is n q2.
Proof. by rewrite <-append_cons, last_byte_snoc. Qed.

(** The line written for a variable sets the variable to its value. *)
Lemma load_line_export (key value : string) (env : gmap string string) :
  loadable_name key = true → TaskWrapper.has_nul value = false →
  TaskWrapper.load_line (export_text key value) env
  = Some (<[key := value]> env).
Proof.
  unfold loadable_name.
  intros ((((Hne & _)%andb_true_iff & Heq%negb_true_iff)%andb_true_iff
           & Hnul%negb_true_iff)%andb_true_iff
          & Hstrip%String.eqb_eq)%andb_true_iff Hv.
  set (quoted := String "034" (MakeEnv.escape_quotes value
                               +:+ String "034" "")).
  assert (Hraw : export_text key value
                 = "export " +:+ key +:+ String "=" quoted) by done.
  assert (Hstrip_raw : TaskWrapper.strip (export_text key value)
                       = export_text key value).
  { transitivity
      (String "e" (("xport " +:+ key +:+ "=" +:+ dq
                    +:+ MakeEnv.escape_quotes value) +:+ String "034" "")).
    - rewrite <-strip_id by done. f_equal. unfold export_text.
      change ("export " +:+ ?x) with (String "e" ("xport " +:+ x)).
      f_equal. by rewrite !append_assoc.
    - unfold export_text.
      change ("export " +:+ ?x) with (String "e" ("xport " +:+ x)).
      f_equal. by rewrite !append_assoc. }
  assert (Hhash : PyStr.startswith "#" (export_text key value) = false).
  { unfold PyStr.startswith, export_text.
    change ("export " +:+ ?x) with (String "e" ("xport " +:+ x)).
    simpl. by destruct (ascii_dec "#" "e"). }
  assert (Htruthy : PyStr.truthy (export_text key value) = true) by done.
  unfold TaskWrapper.load_line.
  rewrite Hstrip_raw, Htruthy, Hhash. cbn [negb orb].
  rewrite Hraw, startswith_app.
  change 7 with (String.length "export "). rewrite drop_bytes_app.
  rewrite split_eq_key by done.
  change ("" +:+ key) with key. rewrite Hstrip.
  unfold quoted. cbn [TaskWrapper.first_byte_is].
  rewrite last_byte_quoted.
  change (PyStr.byte_is 34 "034") with true. cbn [andb].
  rewrite strip_ends_quoted, unescape_escape.
  unfold TaskWrapper.putenv_ok. by rewrite Hne, Hnul, Hv.
Qed.

Lemma one_line_app (s1 s2 : string) :
  one_line (s1 +:+ s2) = one_line s1 && one_line s2.
Proof.
  induction s1 as [|a s1 IH]; [done|]. rewrite append_cons. simpl.
  by rewrite IH, andb_assoc.
Qed.

Lemma one_line_escape (s : string) :
  one_line (MakeEnv.escape_quotes s) = one_line s.
Proof.
  induction s as [|a s IH]; [done|]. simpl.
  destruct (PyStr.byte_is 34 a) eqn:Ha.
  - apply byte_is_true in Ha. subst a. simpl. exact IH.
  - simpl. by rewrite IH.
Qed.

Lemma file_lines_line (s rest cur : string) :
  one_line s = true →
  TaskWrapper.file_lines (s +:+ nl +:+ rest) cur
  = (cur +:+ s) :: TaskWrapper.file_lines rest "".
Proof.
  revert cur. induction s as [|a s IH]; intros cur Hs.
  - by rewrite append_nil_r.
  - simpl in Hs. apply andb_true_iff in Hs as [Ha%negb_true_iff Hs].
    rewrite append_cons. cbn [TaskWrapper.file_lines]. rewrite Ha.
    rewrite IH by done. by rewrite append_assoc.
Qed.

(** Reading a text whose first line is [s]: the line is read, then the
    rest of the text. *)
Lemma load_first_line (s rest : string) (env env' : gmap string string) :
  one_line s = true → TaskWrapper.load_line s env = Some env' →
  TaskWrapper.load_env_file (Some (s +:+ nl +:+ rest)) env
  = TaskWrapper.load_env_file (Some rest) env'.
Proof.
  intros Hs Hl. unfold TaskWrapper.load_env_file.
  rewrite file_lines_line by done. cbn [TaskWrapper.load_lines].
  change ("" +:+ s) with s. by rewrite Hl.
Qed.

Lemma load_comment (text rest : string) (env : gmap string string) :
  one_line text = true →
  TaskWrapper.load_env_file (Some ((("#" +:+ text) +:+ nl) +:+ rest)) env
  = TaskWrapper.load_env_file (Some rest) env.
Proof.
  intros Ht. rewrite append_assoc.
  apply load_first_line; [done|]. apply load_line_comment.
Qed.

Lemma load_blank (rest : string) (env : gmap string string) :
  TaskWrapper.load_env_file (Some (nl +:+ rest)) env
  = TaskWrapper.load_env_file (Some rest) env.
Proof. by apply (load_first_line "" rest env env). Qed.

Lemma load_export (key value rest : string) (env : gmap string string) :
  loadable_name key && loadable_value value = true →
  TaskWrapper.load_env_file
    (Some (MakeEnv.export_line key value +:+ rest)) env
  = TaskWrapper.load_env_file (Some rest) (<[key := value]> env).
Proof.
  intros [Hk [Hv Hn%negb_true_iff]%andb_true_iff]%andb_true_iff.
  assert (Hline : MakeEnv.export_line key value +:+ rest
                  = export_text key value +:+ nl +:+ rest).
  { unfold MakeEnv.export_line, export_text. by rewrite !append_assoc. }
  rewrite Hline. apply load_first_line; [|by apply load_line_export].
  unfold export_text. rewrite !one_line_app, one_line_escape, Hv.
  unfold loadable_name in Hk.
  apply andb_true_iff in Hk as [Hk _]. apply andb_true_iff in Hk as [Hk _].
  apply andb_true_iff in Hk as [Hk _]. apply andb_true_iff in Hk as [_ ->].
  done.
Qed.

Lemma load_exports (key_of : string → string)
    (pairs : list (string * string)) (rest : string)
    (env : gmap string string) :
  forallb (λ kv, loadable_name kv.1 && loadable_value kv.2)
          (map (λ kv, (key_of kv.1, kv.2)) pairs) = true →
  TaskWrapper.load_env_file
    (Some (PyStr.concat
             (map (λ kv, MakeEnv.export_line (key_of kv.1) kv.2) pairs)
           +:+ rest)) env
  = TaskWrapper.load_env_file (Some rest)
      (set_pairs env (map (λ kv, (key_of kv.1, kv.2)) pairs)).
Proof.
  revert env. induction pairs as [|[k v] pairs IH]; intros env Hall; [done|].
  cbn [forallb map] in Hall. apply andb_true_iff in Hall as [Hkv Hall].
  cbn [map PyStr.concat foldr]. rewrite append_assoc.
  rewrite load_export by done. by rewrite IH.
Qed.

Lemma set_pairs_app (env : gmap string string)
    (l1 l2 : list (string * string)) :
  set_pairs env (l1 ++ l2) = set_pairs (set_pairs env l1) l2.
Proof. apply fold_left_app. Qed.

Ltac flatten_text :=
  rewrite ?concat_app; cbn [PyStr.concat foldr];
  rewrite ?append_nil_r, ?append_assoc.

Lemma load_task (t : task) (rest : string) (env : gmap string string) :
  forallb (λ kv, loadable_name kv.1 && loadable_value kv.2)
          (task_bindings t) = true →
  (PyStr.truthy (default "" (t_name t)) = true →
   one_line (default "" (t_name t)) = true) →
  TaskWrapper.load_env_file
    (Some (PyStr.concat (MakeEnv.task_writes t) +:+ rest)) env
  = TaskWrapper.load_env_file (Some rest)
      (set_pairs env (task_bindings t)).
Proof.
  unfold task_bindings, MakeEnv.task_writes.
  destruct (PyStr.truthy (default "" (t_name t))); [|done].
  intros Hall Hname. specialize (Hname eq_refl). cbn [negb].
  set (name := default "" (t_name t)) in *.
  set (status := if default true (t_enabled t) then "启用" else "禁用").
  set (exports := match t_env t with
                  | Some env0 =>
                      map (λ kv, MakeEnv.export_line
                                   (name +:+ "_" +:+ kv.1) kv.2) env0
                  | None => []
                  end).
  assert (Htext :
    PyStr.concat
      (["# 任务: " +:+ name +:+ " (" +:+ status +:+ ")" +:+ nl]
       ++ exports ++ [nl]) +:+ rest
    = (("#" +:+ (" 任务: " +:+ name +:+ " (" +:+ status +:+ ")")) +:+ nl)
      +:+ (PyStr.concat exports +:+ (nl +:+ rest))).
  { flatten_text. reflexivity. }
  rewrite Htext, load_comment.
  2:{ rewrite !one_line_app, Hname. unfold status.
      by destruct (default true (t_enabled t)). }
  unfold exports. destruct (t_env t) as [env_t|]; cbn [default] in *.
  - rewrite (load_exports (λ k, name +:+ "_" +:+ k)) by done.
    by rewrite load_blank.
  - cbn [map PyStr.concat foldr]. change ("" +:+ ?x) with x.
    by rewrite load_blank.
Qed.

Lemma load_tasks (tasks : list task) (rest : string)
    (env : gmap string string) :
  forallb (λ kv, loadable_name kv.1 && loadable_value kv.2)
          (flat_map task_bindings tasks) = true →
  forallb (λ t, one_line (default "" (t_name t)))
          (List.filter (λ t, PyStr.truthy (default "" (t_name t))) tasks)
  = true →
  TaskWrapper.load_env_file
    (Some (PyStr.concat (flat_map MakeEnv.task_writes tasks) +:+ rest)) env
  = TaskWrapper.load_env_file (Some rest)
      (set_pairs env (flat_map task_bindings tasks)).
Proof.
  revert env. induction tasks as [|t tasks IH]; intros env Hall Hnames;
    [done|].
  cbn [flat_map] in *. rewrite forallb_app in Hall.
  apply andb_true_iff in Hall as [Ht Hall].
  rewrite concat_app, append_assoc, set_pairs_app.
  rewrite load_task; [apply IH; [done|] | done |].
  - cbn [List.filter] in Hnames.
    destruct (PyStr.truthy (default "" (t_name t))); [|done].
    cbn [forallb] in Hnames. by apply andb_true_iff in Hnames as [_ ?].
  - intros Htr. cbn [List.filter] in Hnames. rewrite Htr in Hnames.
    cbn [forallb] in Hnames. by apply andb_true_iff in Hnames as [? _].
Qed.

(** The wrapper reads back the whole env file of a loadable
    configuration: after [load_env_file] the environment is the one before
    with every variable of the file set, in the order of the file. *)
Lemma load_generated (config_path env_file : string) (cfg : config)
    (stamp : string) (old : option string) (env : gmap string string) :
  loadable_config cfg = true → one_line stamp = true →
  TaskWrapper.load_env_file
    (g_file (MakeEnv.generate_env config_path env_file (Loaded cfg)
               stamp old)) env
  = set_pairs env (env_bindings cfg).
Proof.
  unfold loadable_config, env_bindings, named_tasks.
  intros [Hall Hnames]%andb_true_iff Hstamp.
  rewrite forallb_app in Hall. apply andb_true_iff in Hall as [Hg Ht].
  cbn [MakeEnv.generate_env g_file].
  unfold MakeEnv.env_writes, MakeEnv.header_writes.
  set (globals := MakeEnv.global_writes cfg).
  set (tasks := MakeEnv.tasks_writes cfg).
  assert (Htext :
    PyStr.concat
      (["# 自动生成的环境变量文件" +:+ nl;
        "# 生成时间: " +:+ stamp +:+ nl;
        "# 不要手动编辑此文件" +:+ nl +:+ nl] ++ globals ++ tasks)
    = (("#" +:+ " 自动生成的环境变量文件") +:+ nl)
      +:+ ((("#" +:+ (" 生成时间: " +:+ stamp)) +:+ nl)
           +:+ ((("#" +:+ " 不要手动编辑此文件") +:+ nl)
                +:+ (nl +:+ (PyStr.concat globals
                             +:+ (PyStr.concat tasks +:+ "")))))).
  { flatten_text. reflexivity. }
  rewrite Htext. clear Htext.
  rewrite load_comment by done.
  rewrite load_comment by (by rewrite one_line_app, Hstamp).
  rewrite load_comment by done. rewrite load_blank.
  rewrite set_pairs_app.
  assert (Hpairs : ∀ l : list (string * string),
            map (λ kv : string * string, (kv.1, kv.2)) l = l).
  { induction l as [|[] ? IH]; [done|]. simpl. by rewrite IH. }
  assert (Hglobal :
    ∀ rest e,
      TaskWrapper.load_env_file (Some (PyStr.concat globals +:+ rest)) e
      = TaskWrapper.load_env_file (Some rest)
          (set_pairs e (default [] (c_global_env cfg)))).
  { intros rest e. unfold globals, MakeEnv.global_writes.
    destruct (c_global_env cfg) as [global_env|]; cbn [default] in *;
      [|done].
    assert (Hg_text :
      PyStr.concat
        (["# 全局环境变量" +:+ nl]
         ++ map (λ kv, MakeEnv.export_line kv.1 kv.2) global_env ++ [nl])
      +:+ rest
      = (("#" +:+ " 全局环境变量") +:+ nl)
        +:+ (PyStr.concat
               (map (λ kv, MakeEnv.export_line kv.1 kv.2) global_env)
             +:+ (nl +:+ rest))).
    { flatten_text. reflexivity. }
    rewrite Hg_text, load_comment by done.
    rewrite (load_exports (λ k, k)) by (by rewrite Hpairs).
    by rewrite load_blank, Hpairs. }
  rewrite Hglobal. unfold tasks, MakeEnv.tasks_writes.
  destruct (c_tasks cfg) as [[|t ts]|]; cbn [default] in *; try done.
  assert (Ht_text :
    PyStr.concat (["# 任务专属环境变量" +:+ nl]
                  ++ flat_map MakeEnv.task_writes (t :: ts)) +:+ ""
    = (("#" +:+ " 任务专属环境变量") +:+ nl)
      +:+ (PyStr.concat (flat_map MakeEnv.task_writes (t :: ts)) +:+ "")).
  { rewrite concat_app. cbn [PyStr.concat foldr].
    rewrite !append_nil_r, ?append_assoc. reflexivity. }
  rewrite Ht_text, load_comment by done.
  by rewrite load_tasks.
Qed.

Lemma set_pairs_notin (env : gmap string string)
    (pairs : list (string * string)) (k : string) :
  ¬ In k (map fst pairs) → set_pairs env pairs !! k = env !! k.
Proof.
  revert env. induction pairs as [|[k' v'] pairs IH]; intros env Hk; [done|].
  change (set_pairs env ((k', v') :: pairs))
    with (set_pairs (<[k' := v']> env) pairs).
  rewrite IH by (intros ?; apply Hk; by right).
  apply lookup_insert_ne. intros ->. apply Hk. by left.
Qed.

Lemma set_pairs_lookup (env : gmap string string)
    (pairs : list (string * string)) (k v : string) :
  List.NoDup (map fst pairs) → In (k, v) pairs →
  set_pairs env pairs !! k = Some v.
Proof.
  revert env. induction pairs as [|[k' v'] pairs IH]; intros env Hnd Hin;
    [done|].
  cbn [map fst] in Hnd. apply List.NoDup_cons_iff in Hnd as [Hfresh Hnd].
  change (set_pairs env ((k', v') :: pairs))
    with (set_pairs (<[k' := v']> env) pairs).
  destruct Hin as [[= -> ->]|Hin].
  - rewrite set_pairs_notin by done. apply lookup_insert_eq.
  - by apply IH.
Qed.

(** X1: the escaping of [generate_env] is undone by the unescaping of
    [load_env_file], for every value. *)
Theorem quote_escaping_roundtrip (value : string) :
  TaskWrapper.unescape_quotes (MakeEnv.escape_quotes value) false = value.
Proof.
  induction value as [|a value IH]; [done|]. simpl.
  destruct (PyStr.byte_is 34 a) eqn:Ha.
  - apply byte_is_true in Ha. subst a.
    change (TaskWrapper.unescape_quotes
              (String "092" (String "034" (MakeEnv.escape_quotes value)))
              false = String "034" value).
    simpl. by rewrite IH.
  - simpl. rewrite escape_not_quote_first, andb_false_r. by rewrite IH.
Qed.

(** X2: the line that [generate_env] writes for a variable is read by
    [load_env_file] as the assignment of the value to the name, alone in
    the file or followed by more text, when the name is loadable and the
    value is on one line and has no NUL byte. *)
Theorem export_line_read_back (key value rest : string)
    (env : gmap string string) :
  loadable_name key = true → loadable_value value = true →
  TaskWrapper.load_env_file (Some (MakeEnv.export_line key value)) env
  = <[key := value]> env
  ∧ TaskWrapper.load_env_file
      (Some (MakeEnv.export_line key value +:+ rest)) env
    = TaskWrapper.load_env_file (Some rest) (<[key := value]> env).
Proof.
  intros Hk Hv.
  assert (Hkv : loadable_name key && loadable_value value = true)
    by (by rewrite Hk, Hv).
  split; [|by apply load_export].
  rewrite <-(append_nil_r (MakeEnv.export_line key value)).
  by rewrite (load_export key value "" env Hkv).
Qed.

Lemma export_line_read_back_demo :
  TaskWrapper.load_env_file
    (Some ("export demo_MSG=" +:+ dq +:+ "say " +:+ bs +:+ dq +:+ "hi"
           +:+ bs +:+ dq +:+ " = " +:+ bs +:+ dq +:+ nl))
    ∅
  = {[ "demo_MSG" := "say " +:+ dq +:+ "hi" +:+ dq +:+ " = " +:+ bs ]}.
Proof.
  apply (export_line_read_back "demo_MSG"
           ("say " +:+ dq +:+ "hi" +:+ dq +:+ " = " +:+ bs) "" ∅);
    vm_compute; reflexivity.
Defined.

(** X3: for a loadable configuration, [load_env_file] on the file left by
    [generate_env] sets every variable of the file, in the order of the
    file; with names that are all different each one holds its value, and
    a name that the file does not set keeps what it held. *)
Theorem env_file_read_back (config_path env_file : string) (cfg : config)
    (stamp : string) (old : option string) (env : gmap string string) :
  loadable_config cfg = true → one_line stamp = true →
  let loaded :=
    TaskWrapper.load_env_file
      (g_file (MakeEnv.generate_env config_path env_file (Loaded cfg)
                 stamp old)) env in
  loaded = set_pairs env (env_bindings cfg)
  ∧ (List.NoDup (map fst (env_bindings cfg)) →
     ∀ k v, In (k, v) (env_bindings cfg) → loaded !! k = Some v)
  ∧ (∀ k, ¬ In k (map fst (env_bindings cfg)) → loaded !! k = env !! k).
Proof.
  intros Hcfg Hstamp loaded.
  assert (Hl : loaded = set_pairs env (env_bindings cfg))
    by (by apply load_generated).
  split; [exact Hl|]. rewrite Hl. split.
  - intros Hnd k v Hin. by apply set_pairs_lookup.
  - intros k Hk. by apply set_pairs_notin.
Qed.

Lemma env_file_read_back_demo :
  TaskWrapper.load_env_file
    (g_file (MakeEnv.generate_env "config.yml" "/app/.env"
               (Loaded quoted_config) "2026-01-01 00:00:00" None))
    {[ "HOME" := "/root" ]}
  !! "demo_MSG"
  = Some ("say " +:+ dq +:+ "hi" +:+ dq +:+ " = " +:+ bs).
Proof.
  destruct (env_file_read_back "config.yml" "/app/.env" quoted_config
              "2026-01-01 00:00:00" None {[ "HOME" := "/root" ]})
    as (_ & Hget & _); [vm_compute; reflexivity | reflexivity |].
  apply Hget.
  - vm_compute. repeat constructor; simpl; intuition discriminate.
  - vm_compute. right. right. left. reflexivity.
Defined.

Lemma child_environ_lookup (w : TaskWrapper.world) (task_name k : string) :
  TaskWrapper.child_environ w task_name !! k
  = match TaskWrapper.loaded_environ w !! (task_name +:+ "_" +:+ k) with
    | Some v => Some v
    | None => TaskWrapper.loaded_environ w !! k
    end.
Proof.
  unfold TaskWrapper.child_environ.
  rewrite set_all_union, lookup_union, setup_task_env_lookup.
  destruct (TaskWrapper.loaded_environ w !! (task_name +:+ "_" +:+ k));
    [|by rewrite (left_id_L None _)].
  by destruct (TaskWrapper.loaded_environ w !! k).
Qed.

Lemma task_binding_in (cfg : config) (tasks : list task) (t : task)
    (name : string) (env_t : list (string * string)) (key value : string) :
  c_tasks cfg = Some tasks → In t tasks →
  t_name t = Some name → name ≠ "" →
  t_env t = Some env_t → In (key, value) env_t →
  In (name +:+ "_" +:+ key, value) (env_bindings cfg).
Proof.
  intros Hts Ht Hn Hne He Hkv. unfold env_bindings. rewrite Hts.
  apply in_or_app; right. apply in_flat_map. exists t. split; [done|].
  unfold task_bindings. rewrite Hn, He. cbn [default].
  destruct name as [|a name]; [done|]. cbn [PyStr.truthy].
  by apply (in_map (λ kv, (String a name +:+ "_" +:+ kv.1, kv.2))
              env_t (key, value)).
Qed.

(** X4: from the configuration to the child.  For a loadable
    configuration whose variable names in the env file are all different,
    a wrapper that finds the generated file at /app/.env and runs the
    task [name] gives the child every variable [key] of that task with
    its value, whatever the process environment and the global variables
    hold under [key]; the prefixed variable stays set as well. *)
Theorem task_variable_reaches_child (config_path env_file : string)
    (cfg : config) (stamp : string) (old : option string)
    (w : TaskWrapper.world) (tasks : list task) (t : task) (name : string)
    (env_t : list (string * string)) (key value : string) :
  loadable_config cfg = true → one_line stamp = true →
  List.NoDup (map fst (env_bindings cfg)) →
  c_tasks cfg = Some tasks → In t tasks →
  t_name t = Some name → name ≠ "" →
  t_env t = Some env_t → In (key, value) env_t →
  TaskWrapper.w_env_file w
  = g_file (MakeEnv.generate_env config_path env_file (Loaded cfg)
              stamp old) →
  TaskWrapper.child_environ w name !! key = Some value
  ∧ TaskWrapper.loaded_environ w !! (name +:+ "_" +:+ key) = Some value.
Proof.
  intros Hcfg Hstamp Hnd Hts Ht Hn Hne He Hkv Hfile.
  assert (Hl : TaskWrapper.loaded_environ w !! (name +:+ "_" +:+ key)
               = Some value).
  { unfold TaskWrapper.loaded_environ. rewrite Hfile.
    rewrite load_generated by done.
    apply set_pairs_lookup; [done|]. by eapply task_binding_in. }
  split; [|exact Hl]. by rewrite child_environ_lookup, Hl.
Qed.

Lemma task_variable_reaches_child_demo :
  TaskWrapper.child_environ
    (TaskWrapper.World
       (g_file (MakeEnv.generate_env "config.yml" "/app/.env"
                  (Loaded quoted_config) "2026-01-01 00:00:00" None))
       {[ "MSG" := "ambient" ]} (λ _ _, None) true (λ _, false))
    "demo" !! "MSG"
  = Some ("say " +:+ dq +:+ "hi" +:+ dq +:+ " = " +:+ bs).
Proof.
  refine (proj1 (task_variable_reaches_child "config.yml" "/app/.env"
                   quoted_config "2026-01-01 00:00:00" None _
                   (default [] (c_tasks quoted_config))
                   (Task (Some "demo") None (Some "x.py") (Some false)
                      (Some [("MSG", "say " +:+ dq +:+ "hi" +:+ dq
                                     +:+ " = " +:+ bs)]) None)
                   "demo" _ "MSG" _ _ _ _ _ _ _ _ _ _ _)).
  - vm_compute; reflexivity.
  - reflexivity.
  - vm_compute. repeat constructor; simpl; intuition discriminate.
  - reflexivity.
  - left; reflexivity.
  - reflexivity.
  - discriminate.
  - reflexivity.
  - left; reflexivity.
  - reflexivity.
Defined.

(** X5: what the child finds under a name: the value held under the task
    prefix and the name when there is one, and otherwise what the
    environment held under the name after the env file was read.  The
    wrapper unsets nothing. *)
Theorem child_environ_shadowing (w : TaskWrapper.world)
    (task_name k : string) :
  TaskWrapper.child_environ w task_name !! k
  = match TaskWrapper.loaded_environ w !! (task_name +:+ "_" +:+ k) with
    | Some v => Some v
    | None => TaskWrapper.loaded_environ w !! k
    end
  ∧ (is_Some (TaskWrapper.loaded_environ w !! k) →
     is_Some (TaskWrapper.child_environ w task_name !! k)).
Proof.
  split; [apply child_environ_lookup|].
  rewrite child_environ_lookup. intros Hk.
  by destruct (TaskWrapper.loaded_environ w !! (task_name +:+ "_" +:+ k)).
Qed.

Lemma child_environ_shadowing_demo :
  is_Some (TaskWrapper.child_environ demo_world "demo" !! "demo_FOO").
Proof.
  apply (child_environ_shadowing demo_world "demo" "demo_FOO").
  vm_compute. by eexists.
Defined.

Lemma load_line_keeps (raw : string) (env env' : gmap string string)
    (k : string) :
  TaskWrapper.load_line raw env = Some env' →
  is_Some (env !! k) → is_Some (env' !! k).
Proof.
  unfold TaskWrapper.load_line. intros Hl Hk.
  destruct (negb _ || _) in Hl; [by simplify_eq|].
  destruct (TaskWrapper.split_eq _ _) as [[key value]|] in Hl;
    [|by simplify_eq].
  destruct (TaskWrapper.putenv_ok _ _) in Hl; [|done].
  simplify_eq. rewrite lookup_insert. case_decide; [by eexists | done].
Qed.

(** X6: [load_env_file] never removes a variable: a name that is set
    before the file is read is set after it, whatever the file holds and
    also when reading stops at a line that cannot be assigned. *)
Theorem load_env_file_keeps (content : option string)
    (env : gmap string string) (k : string) :
  is_Some (env !! k) →
  is_Some (TaskWrapper.load_env_file content env !! k).
Proof.
  destruct content as [text|]; [|done]. simpl.
  generalize (TaskWrapper.file_lines text ""). intros lines. revert env.
  induction lines as [|raw lines IH]; intros env Hk; [done|]. simpl.
  destruct (TaskWrapper.load_line raw env) as [env'|] eqn:Hl; [|done].
  apply IH. by eapply load_line_keeps.
Qed.

Lemma load_env_file_keeps_demo :
  is_Some
    (TaskWrapper.load_env_file (Some ("A=1" +:+ nl +:+ "=x" +:+ nl +:+ "B=2"))
       {[ "HOME" := "/root" ]} !! "HOME").
Proof.
  apply (load_env_file_keeps _ {[ "HOME" := "/root" ]} "HOME").
  vm_compute. by eexists.
Defined.

(** X7: the wrapper runs the notifier only after a child that was started
    and ended with a code other than 0, and only when /app/notify.py
    exists; it runs it at most once. *)
Theorem notifier_only_after_failure (py_int : string → option Z)
    (w : TaskWrapper.world) (argv : list string) :
  let r := TaskWrapper.main py_int w argv in
  length (TaskWrapper.r_notified r) ≤ 1
  ∧ (TaskWrapper.r_notified r ≠ [] →
     TaskWrapper.w_notify_exists w = true
     ∧ ∃ c : Z, c ≠ 0%Z ∧ TaskWrapper.r_child r = Some c
                ∧ TaskWrapper.r_outcome r = TaskWrapper.Exit c).
Proof.
  intros r. subst r. unfold TaskWrapper.main.
  destruct argv as [|prog [|task_name [|script_path script_args]]];
    try (simpl; split; [lia|done]).
  destruct (TaskWrapper.setup_task_env _ _ !! "");
    [simpl; split; [lia|done]|].
  destruct (TaskWrapper.w_popen w _ _) as [[raw_lines code|raw_lines]|];
    [|simpl; split; [lia|done]..].
  cbn [TaskWrapper.r_notified TaskWrapper.r_child TaskWrapper.r_outcome].
  destruct (Z.eqb_spec code 0) as [->|Hcode]; cbn [negb];
    [split; [simpl; lia|done]|].
  destruct (TaskWrapper.w_notify_exists w); [|split; [simpl; lia|done]].
  split; [|by eauto].
  unfold TaskWrapper.send_failure, TaskWrapper.try_notify,
    TaskWrapper.bind.
  destruct (TaskWrapper.log_lines_of py_int _); [|simpl; lia].
  destruct (TaskWrapper.w_notify_raises w _); simpl; lia.
Qed.

Lemma notifier_only_after_failure_demo :
  TaskWrapper.w_notify_exists demo_world = true
  ∧ ∃ c : Z, c ≠ 0%Z
      ∧ TaskWrapper.r_child
          (TaskWrapper.main TaskWrapper.decimal_int demo_world demo_argv)
        = Some c
      ∧ TaskWrapper.r_outcome
          (TaskWrapper.main TaskWrapper.decimal_int demo_world demo_argv)
        = TaskWrapper.Exit c.
Proof.
  apply (notifier_only_after_failure TaskWrapper.decimal_int demo_world
           demo_argv).
  vm_compute. discriminate.
Defined.

(** ** src/notify.py: which titles count as failures *)

Lemma prefix_empty (s : string) : String.prefix "" s = true.
Proof. by destruct s. Qed.

Lemma prefix_before_byte (c : ascii) (kw u v : string) :
  PyStr.contains (String c "") kw = false →
  String.prefix kw (u +:+ String c v) = String.prefix kw u.
Proof.
  revert u. induction kw as [|k kw IH]; intros u Hc.
  - by rewrite !prefix_empty.
  - rewrite contains_unfold in Hc. apply orb_false_iff in Hc as [Hk Hc].
    unfold PyStr.startswith in Hk. simpl in Hk.
    destruct (ascii_dec c k) as [->|Hck]; [by rewrite prefix_empty in Hk|].
    destruct u as [|x u].
    + simpl. destruct (ascii_dec k c); [congruence|done].
    + rewrite append_cons. simpl. destruct (ascii_dec k x); [|done].
      by apply IH.
Qed.

(** A keyword without the byte [c] is found in a text cut at a [c] when
    it is found in one of the two parts. *)
Lemma contains_around_byte (c : ascii) (kw a b : string) :
  PyStr.contains (String c "") kw = false →
  PyStr.contains kw (a +:+ String c b)
  = PyStr.contains kw a || PyStr.contains kw b.
Proof.
  intros Hc. induction a as [|x a IH].
  - change ("" +:+ String c b) with (String c b).
    rewrite (contains_unfold kw (String c b)), (contains_unfold kw "").
    unfold PyStr.startswith.
    rewrite <-(prefix_before_byte c kw "" b Hc). by rewrite orb_false_r.
  - rewrite append_cons, (contains_unfold kw (String x _)),
      (contains_unfold kw (String x a)), IH.
    unfold PyStr.startswith.
    rewrite <-append_cons, (prefix_before_byte c kw _ b Hc).
    by rewrite orb_assoc.
Qed.

Lemma is_failure_around_space (a b : string) :
  Notify.is_failure (a +:+ String " " b)
  = Notify.is_failure a || Notify.is_failure b.
Proof.
  unfold Notify.is_failure. rewrite !contains_around_byte by done.
  destruct (PyStr.contains "失败" a), (PyStr.contains "失败" b),
    (PyStr.contains "错误" a), (PyStr.contains "错误" b),
    (PyStr.contains "异常" a), (PyStr.contains "异常" b); done.
Qed.

(** X8: the title and the body that the wrapper hands to the notifier
    pass the gate of [notify] exactly when [on_failure] is set, for every
    task name and whatever [on_success] is: the title counts as a failure
    and the body is not empty. *)
Theorem wrapper_notification_gate (config : Notify.notify_config)
    (task_name log_content : string) (n log_lines : Z)
    (output_lines : list string) :
  let cmd := TaskWrapper.notify_cmd task_name n output_lines in
  let title := nth 2 cmd "" in
  let content := nth 3 cmd "" in
  Notify.is_failure title = true
  ∧ Notify.notify config title content false log_content log_lines
    = if Notify.on_failure config
      then Notify.dispatch config title content log_content log_lines
      else ([], [LogInfo ("跳过失败通知（on_failure=false）: " +:+ title)]).
Proof.
  intros cmd title content. subst cmd title content.
  cbn [TaskWrapper.notify_cmd nth].
  assert (Hf : Notify.is_failure (task_name +:+ " 执行失败") = true).
  { change (task_name +:+ " 执行失败")
      with (task_name +:+ String " " "执行失败").
    rewrite is_failure_around_space. apply orb_true_r. }
  split; [exact Hf|]. unfold Notify.notify. rewrite Hf.
  by destruct (Notify.on_failure config).
Qed.

(** X9: how [notify_task_result] is gated.  A failed task is announced
    exactly when [on_failure] is set.  For a successful task the title
    counts as a failure exactly when the task name holds one of the
    words 失败, 错误, 异常: then [on_failure] decides, and [on_success]
    decides otherwise. *)
Theorem task_result_gate (config : Notify.notify_config)
    (task_name message : string) :
  Notify.is_failure (NotifyResult.result_title task_name false) = true
  ∧ Notify.is_failure (NotifyResult.result_title task_name true)
    = Notify.is_failure task_name
  ∧ NotifyResult.notify_task_result config task_name false message
    = (if Notify.on_failure config
       then Notify.dispatch config
              (NotifyResult.result_title task_name false)
              (NotifyResult.result_content false message) "" 15
       else ([], [LogInfo ("跳过失败通知（on_failure=false）: "
                           +:+ NotifyResult.result_title task_name false)]))
  ∧ NotifyResult.notify_task_result config task_name true message
    = (if Notify.is_failure task_name then
         if Notify.on_failure config
         then Notify.dispatch config
                (NotifyResult.result_title task_name true)
                (NotifyResult.result_content true message) "" 15
         else ([], [LogInfo ("跳过失败通知（on_failure=false）: "
                             +:+ NotifyResult.result_title task_name true)])
       else
         if Notify.on_success config
         then Notify.dispatch config
                (NotifyResult.result_title task_name true)
                (NotifyResult.result_content true message) "" 15
         else ([], [LogInfo ("跳过成功通知（on_success=false）: "
                             +:+ NotifyResult.result_title task_name true)])).
Proof.
  assert (Hfail : Notify.is_failure
                    (NotifyResult.result_title task_name false) = true).
  { unfold NotifyResult.result_title.
    change ("❌ " +:+ task_name +:+ " 执行失败")
      with ("❌" +:+ String " " (task_name +:+ String " " "执行失败")).
    rewrite !is_failure_around_space. by rewrite !orb_true_r. }
  assert (Hsucc : Notify.is_failure
                    (NotifyResult.result_title task_name true)
                  = Notify.is_failure task_name).
  { unfold NotifyResult.result_title.
    change ("✅ " +:+ task_name +:+ " 执行成功")
      with ("✅" +:+ String " " (task_name +:+ String " " "执行成功")).
    rewrite !is_failure_around_space.
    change (Notify.is_failure "✅") with false.
    change (Notify.is_failure "执行成功") with false.
    by rewrite orb_false_r. }
  assert (Hcontent : ∀ success,
            PyStr.truthy (NotifyResult.result_content success message)
            = true).
  { intros success. unfold NotifyResult.result_content.
    destruct (PyStr.truthy message) eqn:Hm; [done|]. by destruct success. }
  split; [exact Hfail|]. split; [exact Hsucc|].
  unfold NotifyResult.notify_task_result, Notify.notify.
  rewrite !Hcontent, Hfail, Hsucc. cbn [negb andb].
  split.
  - by destruct (Notify.on_failure config).
  - by destruct (Notify.is_failure task_name), (Notify.on_failure config),
         (Notify.on_success config).
Qed.

(** ** manage.py and src/webapp.py: the two descriptions of a schedule *)

(** X10: the command line and the web interface describe a schedule in
    the same words, except for a schedule restricted by day of the month
    or by month only: there the command line adds the schedule itself
    after the word 日期 and the web interface adds nothing. *)
Theorem parse_cron_cli_and_web (cron_expr : string) :
  (date_only cron_expr = false →
   Manage.parse_cron cron_expr = Webapp.parse_cron cron_expr)
  ∧ (date_only cron_expr = true →
     Manage.parse_cron cron_expr
     = Webapp.parse_cron cron_expr +:+ " 日期: " +:+ cron_expr).
Proof.
  unfold date_only, Manage.parse_cron, Webapp.parse_cron.
  destruct (PyStr.split cron_expr)
    as [|minute [|hour [|day [|month [|weekday [|]]]]]]; try done.
  set (d1 := if Manage.is_star minute then ["每分钟"]
             else if PyStr.startswith "*/" minute
                  then ["每" +:+ PyStr.drop_bytes 2 minute +:+ "分钟"]
                  else [minute +:+ "分"]).
  assert (H1 : ∃ x, d1 = [x]).
  { unfold d1. destruct (Manage.is_star minute); [by eexists|].
    destruct (PyStr.startswith "*/" minute); by eexists. }
  destruct H1 as [x ->]. cbn [hd].
  set (d2 := if Manage.is_star hour
             then if PyStr.contains "每" x then [x] ++ ["每小时"] else [x]
             else if PyStr.startswith "*/" hour
                  then [x] ++ ["每" +:+ PyStr.drop_bytes 2 hour +:+ "小时"]
                  else [x] ++ [hour +:+ "时"]).
  assert (H2 : (∃ y, d2 = [x; y]) ∨ d2 = [x]).
  { unfold d2. destruct (Manage.is_star hour).
    - destruct (PyStr.contains "每" x); [left; by eexists | by right].
    - destruct (PyStr.startswith "*/" hour); left; by eexists. }
  destruct (Manage.is_star weekday) eqn:Hw; cbn [negb andb orb].
  - destruct (Manage.is_star day), (Manage.is_star month);
      cbn [negb andb orb]; split; try done; intros _.
    all: destruct H2 as [[y ->]| ->]; cbn;
      by rewrite ?append_assoc.
  - rewrite !orb_true_r. split; [|done]. intros _.
    by destruct (Manage.is_star day && Manage.is_star month).
Qed.

Lemma parse_cron_cli_and_web_demo :
  Manage.parse_cron "30 8 * * 1" = Webapp.parse_cron "30 8 * * 1"
  ∧ Manage.parse_cron "0 8 1 * *"
    = Webapp.parse_cron "0 8 1 * *" +:+ " 日期: 0 8 1 * *".
Proof.
  split.
  - apply (parse_cron_cli_and_web "30 8 * * 1"). reflexivity.
  - apply (parse_cron_cli_and_web "0 8 1 * *"). reflexivity.
Defined.

(** ** manage.py: the run command *)

Lemma run_loop_spec (h : Cli.host) (cfg : config) (tasks : list task)
    (ok bad : nat) (out : list Cli.event) (cmds : list string) :
  ∃ ran rest out',
    tasks = ran ++ rest
    ∧ Forall (λ t, Cli.h_shell_raises h (Cli.all_cmd cfg t) = None) ran
    ∧ (∀ t, head rest = Some t →
            is_Some (Cli.h_shell_raises h (Cli.all_cmd cfg t)))
    ∧ Cli.run_loop h cfg tasks (ok, bad, out, cmds)
      = (ok + length (List.filter
                        (λ t, (Cli.h_shell h (Cli.all_cmd cfg t) =? 0)%Z)
                        ran),
         bad + length (List.filter
                         (λ t, negb (Cli.h_shell h (Cli.all_cmd cfg t) =? 0)%Z)
                         ran),
         out', cmds ++ map (Cli.all_cmd cfg) ran,
         head rest ≫= (λ t, Cli.h_shell_raises h (Cli.all_cmd cfg t))).
Proof.
  revert ok bad out cmds.
  induction tasks as [|t tasks IH]; intros ok bad out cmds.
  - exists [], [], out. cbn. rewrite !Nat.add_0_r, app_nil_r.
    repeat split; [constructor | by intros].
  - cbn [Cli.run_loop].
    destruct (Cli.h_shell_raises h (Cli.all_cmd cfg t)) as [e|] eqn:He.
    + exists [], (t :: tasks),
        (out ++ [Cli.Plain (nl +:+ "执行任务: "
                            +:+ default "未命名" (t_name t))]).
      cbn. rewrite !Nat.add_0_r, app_nil_r, He.
      repeat split; [constructor|]. intros t0 [= <-]. by rewrite He.
    + unfold Cli.run_step.
      destruct (Cli.h_shell h (Cli.all_cmd cfg t) =? 0)%Z eqn:Hz.
      * edestruct IH as (ran & rest & out' & -> & Hran & Hrest & ->).
        exists (t :: ran), rest, out'. cbn [app List.filter map length].
        rewrite Hz. cbn [negb length].
        rewrite <-app_assoc, Nat.add_succ_r.
        repeat split; [by constructor | done].
      * edestruct IH as (ran & rest & out' & -> & Hran & Hrest & ->).
        exists (t :: ran), rest, out'. cbn [app List.filter map length].
        rewrite Hz. cbn [negb length].
        rewrite <-app_assoc, Nat.add_succ_r.
        repeat split; [by constructor | done].
Qed.

Lemma filter_none_all {A} (f : A → bool) (l : list A) :
  length (List.filter (λ x, negb (f x)) l) = 0 ↔ Forall (λ x, f x = true) l.
Proof.
  induction l as [|x l IH]; [by split|]. cbn [List.filter].
  destruct (f x) eqn:Hx; cbn [negb].
  - rewrite IH. split; [by constructor|]. by inversion 1.
  - split; [done|]. inversion 1; congruence.
Qed.

(** On a host where the command of a task with a NUL byte in its name
    cannot be started, [run --all] stops at that task: the task after it
    is not run and the exit code is 1. *)
Example run_all_stops_at_exception :
  Cli.cmd_run strict_host identity_lower None true false
  = Cli.Ran 1
      [Cli.Info "执行所有已启用任务...";
       Cli.Plain (nl +:+ "将执行 2 个任务" +:+ nl +:+ PyStr.repeat "-" 50);
       Cli.Plain (nl +:+ "执行任务: " +:+ String "000" "");
       Cli.Error "执行失败: embedded null byte"]
      [].
Proof. vm_compute. done. Qed.

(** X11: [run --all] on a running container runs the commands of the
    enabled tasks, once each and in the order of the configuration, also
    after a task has failed, up to the first command that cannot be
    started, and runs nothing for a disabled task; when every command can
    be started it runs the command of every enabled task.  It returns 0
    when there is an enabled task and every command was started and
    returned 0, and 1 otherwise. *)
Theorem run_all_runs_every_enabled_task (h : Cli.host)
    (lower : string → string) (cfg : config) (task_name : option string)
    (interactive : bool) :
  Cli.h_running h = true → Cli.h_config h = Some cfg →
  let r := Cli.cmd_run h lower task_name true interactive in
  let enabled := List.filter Cli.task_enabled (default [] (c_tasks cfg)) in
  let starts (t : task) :=
    Cli.h_shell_raises h (Cli.all_cmd cfg t) = None in
  (∃ ran rest : list task,
     enabled = ran ++ rest
     ∧ Forall starts ran
     ∧ (∀ t, head rest = Some t → ¬ starts t)
     ∧ Cli.executed r = map (Cli.all_cmd cfg) ran)
  ∧ (Forall starts enabled →
     Cli.executed r = map (Cli.all_cmd cfg) enabled)
  ∧ (Cli.code r = 0%Z
     ↔ enabled ≠ []
       ∧ Forall (λ t, starts t ∧ Cli.h_shell h (Cli.all_cmd cfg t) = 0%Z)
           enabled)
  ∧ (Cli.code r = 0%Z ∨ Cli.code r = 1%Z).
Proof.
  intros Hrun Hcfg r enabled starts. subst r. unfold Cli.cmd_run.
  rewrite Hrun, Hcfg. rewrite !andb_false_r. cbn [negb andb].
  unfold Cli.run_all_tasks. fold enabled.
  destruct enabled as [|t ts] eqn:He.
  { cbn. split; [by exists [], []|]. split; [done|].
    split; [|by right]. split; [done|]. by intros []. }
  destruct (run_loop_spec h cfg (t :: ts) 0 0
              ([Cli.Info "执行所有已启用任务..."]
               ++ [Cli.Plain (nl +:+ "将执行 " +:+ pretty (length (t :: ts))
                              +:+ " 个任务" +:+ nl +:+ PyStr.repeat "-" 50)])
              []) as (ran & rest & out' & Hsplit & Hran & Hrest & Hloop).
  rewrite Hloop. clear Hloop. cbn [app Nat.add].
  destruct rest as [|t' rest]; cbn [head mbind option_bind].
  - rewrite app_nil_r in Hsplit. subst ran.
    cbn [Cli.executed Cli.code].
    set (bad := length (List.filter
                          (λ t0, negb (Cli.h_shell h (Cli.all_cmd cfg t0)
                                       =? 0)%Z)
                          (t :: ts))).
    split. { exists (t :: ts), []. by rewrite app_nil_r. }
    split; [done|].
    assert (Hall : bad = 0
                   ↔ Forall (λ t0, starts t0
                                   ∧ Cli.h_shell h (Cli.all_cmd cfg t0) = 0%Z)
                       (t :: ts)).
    { unfold bad.
      rewrite (filter_none_all
                 (λ t0, (Cli.h_shell h (Cli.all_cmd cfg t0) =? 0)%Z)).
      rewrite !Forall_forall. split.
      - intros Hz t0 Hin. split; [by apply (proj1 (Forall_forall _ _) Hran)|].
        apply Z.eqb_eq. by apply Hz.
      - intros Hz t0 Hin. apply Z.eqb_eq. by apply Hz. }
    destruct (Nat.ltb_spec 0 bad) as [Hbad|Hbad].
    + split; [|by right]. split; [done|]. intros [_ Hf%Hall]. lia.
    + split; [|by left]. split; [|done]. intros _. split; [done|].
      apply Hall. lia.
  - destruct (Hrest t' eq_refl) as [e Hraise]. rewrite Hraise.
    cbn [Cli.executed Cli.code].
    assert (Hnot : ¬ starts t') by (unfold starts; by rewrite Hraise).
    split. { exists ran, (t' :: rest). repeat split; try done.
             by intros t0 [= <-]. }
    split.
    { intros Hall. exfalso. apply Hnot. rewrite Hsplit in Hall.
      apply Forall_app in Hall as [_ Hall]. by inversion Hall. }
    split; [|by right]. split; [done|]. intros [_ Hall].
    exfalso. apply Hnot. rewrite Hsplit in Hall.
    apply Forall_app in Hall as [_ Hall]. inversion Hall as [|? ? [? _] _].
    done.
Qed.

Lemma run_all_runs_every_enabled_task_demo :
  Cli.executed (Cli.cmd_run demo_host identity_lower None true false)
  = [Cli.all_cmd three_tasks lost_task; Cli.all_cmd three_tasks demo_task].
Proof.
  destruct (run_all_runs_every_enabled_task demo_host identity_lower
              three_tasks None false) as (_ & Hall & _);
    [reflexivity | reflexivity |].
  apply Hall. by repeat constructor.
Defined.

Ltac nothing_ran :=
  cbn; split; [lia|]; split; [intros H; by destruct H|];
  split; [|by right]; split; [done | by intros (? & [=] & _)].

Lemma cmd_run_named (h : Cli.host) (lower : string → string)
    (cfg : config) (name : string) (interactive : bool) :
  Cli.h_running h = true → Cli.h_config h = Some cfg → name ≠ "" →
  Cli.cmd_run h lower (Some name) false interactive
  = Cli.run_one_task h lower cfg name.
Proof.
  intros Hrun Hcfg Hname. unfold Cli.cmd_run.
  destruct name as [|a name]; [done|].
  cbn [default PyStr.truthy negb andb]. rewrite !andb_false_r.
  cbn [negb andb]. by rewrite Hrun, Hcfg.
Qed.

(** X12: [run <task>] on a running container runs at most one command.
    It runs one only for the first task whose lowered name is the lowered
    argument, when that task is enabled and has a script, and the exit
    code is 0 exactly when that command was run and returned 0. *)
Theorem run_one_runs_enabled_task_only (h : Cli.host)
    (lower : string → string) (cfg : config) (name : string)
    (interactive : bool) :
  Cli.h_running h = true → Cli.h_config h = Some cfg → name ≠ "" →
  let r := Cli.cmd_run h lower (Some name) false interactive in
  length (Cli.executed r) ≤ 1
  ∧ (Cli.executed r ≠ [] →
     ∃ t : task,
       Cli.find_task lower name (default [] (c_tasks cfg)) = Some t
       ∧ Cli.task_enabled t = true
       ∧ default "" (t_script t) ≠ ""
       ∧ Cli.executed r
         = [Cli.docker_cmd cfg t name (default "" (t_script t))])
  ∧ (Cli.code r = 0%Z
     ↔ ∃ cmd, Cli.executed r = [cmd] ∧ Cli.h_shell h cmd = 0%Z)
  ∧ (Cli.code r = 0%Z ∨ Cli.code r = 1%Z).
Proof.
  intros Hrun Hcfg Hname r. subst r.
  rewrite (cmd_run_named h lower cfg) by done. unfold Cli.run_one_task.
  destruct (Cli.find_task lower name (default [] (c_tasks cfg)))
    as [t|] eqn:Hfind; [|nothing_ran].
  destruct (Cli.is_empty_task t); [nothing_ran|].
  destruct (Cli.task_enabled t) eqn:Hen; cbn [negb]; [|nothing_ran].
  destruct (default "" (t_script t)) as [|b script] eqn:Hscript;
    cbn [PyStr.truthy negb]; [nothing_ran|].
  destruct (Cli.h_shell_raises h _); [nothing_ran|].
  destruct (Z.eqb_spec
              (Cli.h_shell h (Cli.docker_cmd cfg t name (String b script)))
              0) as [Hz|Hz].
  - cbn. split; [lia|]. split; [intros _; exists t; by rewrite Hscript|].
    split; [|by left]. split; [by eauto|done].
  - cbn. split; [lia|]. split; [intros _; exists t; by rewrite Hscript|].
    split; [|by right]. split; [done|]. intros (cmd & [= <-] & Hcmd). done.
Qed.

Lemma run_one_runs_enabled_task_only_demo :
  Cli.code (Cli.cmd_run demo_host identity_lower (Some "off") false false)
  = 1%Z
  ∧ Cli.code (Cli.cmd_run demo_host identity_lower (Some "demo") false false)
    = 0%Z.
Proof.
  destruct (run_one_runs_enabled_task_only demo_host identity_lower
              three_tasks "off" false) as (_ & _ & Hoff & Hcode);
    [reflexivity | reflexivity | discriminate |].
  destruct (run_one_runs_enabled_task_only demo_host identity_lower
              three_tasks "demo" false) as (_ & _ & Hdemo & _);
    [reflexivity | reflexivity | discriminate |].
  split.
  - destruct Hcode as [H0|H1]; [|exact H1].
    apply Hoff in H0 as (cmd & Hcmd & _). discriminate Hcmd.
  - apply Hdemo. eexists. split; reflexivity.
Defined.

(** X13: [run] starts no command when the container is not running or
    when config.yml cannot be loaded, and then returns 0 only when the
    interactive selection was left without a choice. *)
Theorem run_needs_container_and_config (h : Cli.host)
    (lower : string → string) (task_name : option string)
    (run_all interactive : bool) :
  Cli.h_running h = false ∨ Cli.h_config h = None →
  let r := Cli.cmd_run h lower task_name run_all interactive in
  Cli.executed r = []
  ∧ (Cli.code r = 0%Z →
     interactive = true ∧ run_all = false ∧ Cli.h_selected h = None)
  ∧ (Cli.code r = 0%Z ∨ Cli.code r = 1%Z).
Proof.
  intros Hno r. subst r. unfold Cli.cmd_run.
  set (selecting := interactive
                    && negb (PyStr.truthy (default "" task_name))
                    && negb run_all).
  assert (Hrefused : ∀ out : list Cli.event,
            Cli.executed (Cli.Ran 1 out []) = []
            ∧ (Cli.code (Cli.Ran 1 out []) = 0%Z →
               interactive = true ∧ run_all = false
               ∧ Cli.h_selected h = None)
            ∧ (Cli.code (Cli.Ran 1 out []) = 0%Z
               ∨ Cli.code (Cli.Ran 1 out []) = 1%Z)).
  { intros out. cbn. split; [done|]. split; [done|by right]. }
  assert (Hrest :
    let r := if negb (Cli.h_running h)
             then Cli.Ran 1 [Cli.Error "容器未运行，请先启动容器";
                             Cli.Info "使用: start 命令启动"] []
             else match Cli.h_config h with
                  | None => Cli.Ran 1 [Cli.Error "未找到 config.yml 文件"] []
                  | Some cfg =>
                      if run_all then Cli.run_all_tasks h cfg
                      else Cli.run_one_task h lower cfg
                             (default ""
                                (if selecting then Cli.h_selected h
                                 else task_name))
                  end in
    Cli.executed r = []
    ∧ (Cli.code r = 0%Z →
       interactive = true ∧ run_all = false ∧ Cli.h_selected h = None)
    ∧ (Cli.code r = 0%Z ∨ Cli.code r = 1%Z)).
  { destruct (Cli.h_running h) eqn:Hr; cbn [negb]; [|apply Hrefused].
    destruct Hno as [?| ->]; [congruence|]. apply Hrefused. }
  destruct (selecting && negb _) eqn:Hcancel.
  - apply andb_true_iff in Hcancel as [Hsel Hnone].
    rewrite Hsel in Hnone. unfold selecting in Hsel.
    apply andb_true_iff in Hsel as [[-> _]%andb_true_iff ->%negb_true_iff].
    destruct (Cli.h_selected h); [by rewrite bool_decide_eq_true_2 in Hnone|].
    cbn. split; [done|]. split; [done|by left].
  - destruct (negb _ && negb run_all); [apply Hrefused|]. apply Hrest.
Qed.

Lemma run_needs_container_and_config_demo :
  Cli.executed
    (Cli.cmd_run (Cli.Host false (Some three_tasks) (λ _, 0%Z) None (λ _, None))
       identity_lower (Some "demo") false false) = [].
Proof.
  apply (run_needs_container_and_config
           (Cli.Host false (Some three_tasks) (λ _, 0%Z) None (λ _, None))
           identity_lower (Some "demo") false false).
  left. reflexivity.
Defined.

(** ** src/webapp.py: switching a task on and off *)

Lemma toggle_first_inv (lower : string → string) (task_name : string)
    (tasks tasks' : list task) (new_status : bool) :
  Webapp.toggle_first lower task_name tasks = Some (tasks', new_status) →
  ∃ before t after,
    tasks = before ++ t :: after
    ∧ Forall (λ t', name_matches lower task_name t' = false) before
    ∧ name_matches lower task_name t = true
    ∧ new_status = negb (default true (t_enabled t))
    ∧ tasks' = before ++ Webapp.set_enabled t new_status :: after.
Proof.
  revert tasks'. induction tasks as [|t tasks IH]; intros tasks' H; [done|].
  cbn [Webapp.toggle_first] in H.
  destruct (String.eqb _ _) eqn:Hm.
  - simplify_eq. by exists [], t, tasks.
  - destruct (Webapp.toggle_first lower task_name tasks)
      as [[rest' s]|]; [|done].
    simplify_eq.
    destruct (IH rest' eq_refl)
      as (before & t0 & after & -> & Hb & Ht & Hs & ->).
    exists (t :: before), t0, after. repeat split; try done.
    by constructor.
Qed.

Lemma toggle_first_at (lower : string → string) (task_name : string)
    (before after : list task) (t : task) :
  Forall (λ t', name_matches lower task_name t' = false) before →
  name_matches lower task_name t = true →
  Webapp.toggle_first lower task_name (before ++ t :: after)
  = Some (before
          ++ Webapp.set_enabled t (negb (default true (t_enabled t)))
          :: after,
          negb (default true (t_enabled t))).
Proof.
  intros Hb Ht. induction Hb as [|t' before Ht' Hb IH].
  - cbn [app Webapp.toggle_first]. unfold name_matches in Ht.
    by rewrite Ht.
  - cbn [app Webapp.toggle_first]. unfold name_matches in Ht'.
    by rewrite Ht', IH.
Qed.

Lemma toggle_saved (lower : string → string) (cfg : config)
    (task_name : string) (r : Webapp.toggle_response)
    (saved : option config) :
  Webapp.api_toggle_task lower (Some cfg) true task_name = (r, saved) →
  Webapp.tr_success r = true →
  ∃ before t after,
    c_tasks cfg = Some (before ++ t :: after)
    ∧ Forall (λ t', name_matches lower task_name t' = false) before
    ∧ name_matches lower task_name t = true
    ∧ r = Webapp.ToggleResponse true
            (Some (negb (default true (t_enabled t))))
            ("任务已" +:+ (if negb (default true (t_enabled t))
                          then "启用" else "禁用"))
    ∧ saved
      = Some (Config
                (Some (before
                       ++ Webapp.set_enabled t
                            (negb (default true (t_enabled t)))
                       :: after))
                (c_global_env cfg)).
Proof.
  unfold Webapp.api_toggle_task.
  destruct cfg as [[tasks|] global_env]; [|by intros [= <- <-]].
  destruct (Webapp.toggle_first lower task_name tasks)
    as [[tasks' s]|] eqn:Ht; [|by intros [= <- <-]].
  intros [= <- <-] _.
  destruct (toggle_first_inv _ _ _ _ _ Ht)
    as (before & t & after & -> & Hb & Hm & -> & ->).
  by exists before, t, after.
Qed.

(** X14: when [api_toggle_task] reports success, the configuration it
    saved is the loaded one with one change: the first task whose
    lowered name is the lowered argument has [enabled] set to the
    opposite of its status, which is the status reported.  The other
    tasks, their order and the global variables are as loaded. *)
Theorem toggle_changes_first_match (lower : string → string)
    (cfg : config) (task_name : string) :
  let r := Webapp.api_toggle_task lower (Some cfg) true task_name in
  Webapp.tr_success r.1 = true →
  ∃ before t after,
    c_tasks cfg = Some (before ++ t :: after)
    ∧ Forall (λ t', name_matches lower task_name t' = false) before
    ∧ name_matches lower task_name t = true
    ∧ Webapp.tr_enabled r.1 = Some (negb (default true (t_enabled t)))
    ∧ r.2
      = Some (Config
                (Some (before
                       ++ Webapp.set_enabled t
                            (negb (default true (t_enabled t)))
                       :: after))
                (c_global_env cfg)).
Proof.
  intros r Hok.
  destruct (toggle_saved lower cfg task_name r.1 r.2)
    as (before & t & after & Hts & Hb & Hm & Hr & Hsaved);
    [apply surjective_pairing | done |].
  exists before, t, after. by rewrite Hr.
Qed.

Lemma toggle_changes_first_match_demo :
  (Webapp.api_toggle_task identity_lower (Some three_tasks) true "off").2
  = Some (Config
            (Some [lost_task; Webapp.set_enabled disabled_task true;
                   demo_task]) None).
Proof.
  destruct (toggle_changes_first_match identity_lower three_tasks "off")
    as (before & t & after & Hts & Hb & Hm & _ & Hsaved); [reflexivity|].
  reflexivity.
Defined.

(** X15: switching the same task twice gives back the configuration as
    it was read by the programs: every task has the status it had, and
    nothing else has changed. *)
Theorem toggle_twice_restores (lower : string → string) (cfg cfg1 : config)
    (task_name : string) (r1 : Webapp.toggle_response) :
  Webapp.api_toggle_task lower (Some cfg) true task_name
  = (r1, Some cfg1) →
  Webapp.tr_success r1 = true →
  ∃ r2 cfg2,
    Webapp.api_toggle_task lower (Some cfg1) true task_name
    = (r2, Some cfg2)
    ∧ Webapp.tr_success r2 = true
    ∧ Webapp.tr_enabled r2 = negb <$> Webapp.tr_enabled r1
    ∧ map effective_task (default [] (c_tasks cfg2))
      = map effective_task (default [] (c_tasks cfg))
    ∧ c_global_env cfg2 = c_global_env cfg.
Proof.
  intros H1 Hok.
  destruct (toggle_saved lower cfg task_name r1 (Some cfg1) H1 Hok)
    as (before & t & after & Hts & Hb & Hm & -> & [= ->]).
  unfold Webapp.api_toggle_task.
  rewrite (toggle_first_at lower task_name before after
             (Webapp.set_enabled t (negb (default true (t_enabled t)))))
    by done.
  eexists _, _. split; [reflexivity|]. cbn.
  split; [done|]. split; [done|]. split; [|done].
  rewrite Hts. cbn [default from_option id].
  rewrite !map_app. cbn [map]. do 2 f_equal.
  by destruct t as [? ? ? [[]|] ? ?].
Qed.

Lemma toggle_twice_restores_demo :
  ∃ r2 cfg2,
    Webapp.api_toggle_task identity_lower
      (Some (Config (Some [lost_task; Webapp.set_enabled disabled_task true;
                           demo_task]) None)) true "off"
    = (r2, Some cfg2)
    ∧ map effective_task (default [] (c_tasks cfg2))
      = map effective_task (default [] (c_tasks three_tasks)).
Proof.
  destruct (toggle_twice_restores identity_lower three_tasks
              (Config (Some [lost_task; Webapp.set_enabled disabled_task true;
                             demo_task]) None)
              "off" (Webapp.ToggleResponse true (Some true) "任务已启用"))
    as (r2 & cfg2 & H2 & _ & _ & Hsame & _); [reflexivity | reflexivity |].
  by exists r2, cfg2.
Defined.

(** ** manage.py: the columns of the menu *)

Lemma calc_width_app (s1 s2 : string) :
  Cli.calc_width (s1 +:+ s2) = Cli.calc_width s1 + Cli.calc_width s2.
Proof.
  induction s1 as [|a s1 IH]; [done|]. rewrite append_cons.
  cbn [Cli.calc_width]. rewrite IH. lia.
Qed.

Lemma calc_width_spaces (n : nat) :
  Cli.calc_width (PyStr.repeat " " n) = n.
Proof.
  induction n as [|n IH]; [done|]. cbn [PyStr.repeat].
  rewrite calc_width_app, IH. done.
Qed.

(** X16: [pad_to_width] brings a text to the width asked for, counted as
    [calc_width] counts it, and leaves a text that is already as wide or
    wider as it is; it adds spaces after the text and never cuts it. *)
Theorem pad_to_width_reaches_target (text : string) (target_width : Z) :
  Z.of_nat (Cli.calc_width (Cli.pad_to_width text target_width))
  = Z.max target_width (Z.of_nat (Cli.calc_width text))
  ∧ (∃ n : nat, Cli.pad_to_width text target_width
                = text +:+ PyStr.repeat " " n)
  ∧ ((target_width ≤ Z.of_nat (Cli.calc_width text))%Z →
     Cli.pad_to_width text target_width = text).
Proof.
  unfold Cli.pad_to_width. split; [|split].
  - rewrite calc_width_app, calc_width_spaces. lia.
  - by eexists.
  - intros Hle.
    replace (Z.to_nat (Z.max 0 (target_width
                                - Z.of_nat (Cli.calc_width text)))) with 0
      by lia.
    apply append_nil_r.
Qed.

Lemma pad_to_width_reaches_target_demo :
  Cli.pad_to_width "[容器相关]" 4 = "[容器相关]".
Proof.
  apply (pad_to_width_reaches_target "[容器相关]" 4). vm_compute.
  discriminate.
Defined.

(** ** src/make_env.py: a task without a name *)

(** X17: [generate_env] writes nothing for a task whose name is missing
    or empty, not even its variables: when other tasks remain, the file
    is the one generated without the task. *)
Theorem nameless_task_dropped (config_path env_file : string)
    (cfg : config) (stamp : string) (old : option string)
    (before after : list task) (t : task) :
  c_tasks cfg = Some (before ++ t :: after) →
  default "" (t_name t) = "" →
  MakeEnv.task_writes t = []
  ∧ task_bindings t = []
  ∧ (before ++ after ≠ [] →
     g_file (MakeEnv.generate_env config_path env_file (Loaded cfg)
               stamp old)
     = g_file (MakeEnv.generate_env config_path env_file
                 (Loaded (with_tasks cfg (before ++ after))) stamp old)).
Proof.
  intros Hts Hname.
  assert (Hw : MakeEnv.task_writes t = []).
  { unfold MakeEnv.task_writes. by rewrite Hname. }
  split; [exact Hw|]. split.
  { unfold task_bindings. by rewrite Hname. }
  intros Hne. cbn [MakeEnv.generate_env g_file]. do 2 f_equal.
  unfold MakeEnv.env_writes. f_equal.
  unfold MakeEnv.global_writes, MakeEnv.tasks_writes, with_tasks.
  cbn [c_global_env c_tasks]. rewrite Hts. f_equal.
  assert (Hflat : flat_map MakeEnv.task_writes (before ++ t :: after)
                  = flat_map MakeEnv.task_writes (before ++ after)).
  { rewrite !flat_map_app. cbn [flat_map]. by rewrite Hw. }
  destruct (before ++ after) as [|t1 l1] eqn:Hba; [done|].
  destruct (before ++ t :: after) as [|t2 l2] eqn:Hbta;
    [by destruct before|].
  by rewrite Hflat.
Qed.

Lemma nameless_task_dropped_demo :
  g_file (MakeEnv.generate_env "config.yml" "/app/.env"
            (Loaded quoted_config) "2026-01-01 00:00:00" None)
  = g_file (MakeEnv.generate_env "config.yml" "/app/.env"
              (Loaded (with_tasks quoted_config
                         [Task (Some "demo") None (Some "x.py") (Some false)
                            (Some [("MSG", "say " +:+ dq +:+ "hi" +:+ dq
                                           +:+ " = " +:+ bs)]) None]))
              "2026-01-01 00:00:00" None).
Proof.
  destruct (nameless_task_dropped "config.yml" "/app/.env" quoted_config
              "2026-01-01 00:00:00" None
              [Task (Some "demo") None (Some "x.py") (Some false)
                 (Some [("MSG", "say " +:+ dq +:+ "hi" +:+ dq
                                +:+ " = " +:+ bs)]) None]
              [] (Task None None None None (Some [("LOST", "1")]) None))
    as (_ & _ & Hsame); [reflexivity | reflexivity |].
  apply Hsame. discriminate.
Defined.

(** ** src/make_cron.py: what is looked up on disk *)

Lemma fold_left_agree {A B} (f g : A → B → A) (l : list B) (a : A) :
  (∀ x, In x l → ∀ a', f a' x = g a' x) →
  fold_left f l a = fold_left g l a.
Proof.
  revert a. induction l as [|x l IH]; intros a H; [done|].
  cbn [fold_left]. rewrite (H x) by (by left).
  apply IH. intros y Hy. apply H. by right.
Qed.

(** X18: [generate_cron] looks on disk for the wrapper and for the
    scripts of the enabled tasks only: two file systems that agree on
    those paths give the same file, the same log and the same result. *)
Theorem generate_cron_probes_enabled_scripts (config_path cron_file : string)
    (cfg : config) (disk1 disk2 : string → bool) (old : option string) :
  disk1 "/app/task_wrapper.py" = disk2 "/app/task_wrapper.py" →
  (∀ t, In t (default [] (c_tasks cfg)) →
        MakeCron.task_enabled t = true →
        disk1 (default "" (t_script t))
        = disk2 (default "" (t_script t))) →
  MakeCron.generate_cron config_path cron_file (Loaded cfg) disk1 old
  = MakeCron.generate_cron config_path cron_file (Loaded cfg) disk2 old.
Proof.
  intros Hwrapper Hscripts. unfold MakeCron.generate_cron.
  assert (Hw : MakeCron.cron_writes disk1 cfg
               = MakeCron.cron_writes disk2 cfg); [|by rewrite Hw].
  unfold MakeCron.cron_writes.
  destruct (c_tasks cfg) as [[|t ts]|]; try done.
  rewrite (fold_left_agree (MakeCron.cron_step disk1)
             (MakeCron.cron_step disk2)); [done|].
  intros t' Ht' [written log]. unfold MakeCron.cron_step.
  destruct (MakeCron.task_enabled t') eqn:Hen; [|done]. cbn [negb].
  by rewrite Hwrapper, (Hscripts t' Ht' Hen).
Qed.

Lemma generate_cron_probes_enabled_scripts_demo :
  MakeCron.generate_cron "config.yml" "/tmp/crontab" (Loaded three_tasks)
    demo_exists None
  = MakeCron.generate_cron "config.yml" "/tmp/crontab" (Loaded three_tasks)
      (λ path, demo_exists path || String.eqb path "off.py") None.
Proof.
  apply generate_cron_probes_enabled_scripts; [reflexivity|].
  intros t [<-|[<-|[<-|[]]]]; [reflexivity | discriminate | reflexivity].
Defined.

(** ** src/task_wrapper.py: the number of log lines of one task *)



(** ** manage.py: the counts of the list command *)

(** X20: for every configuration with at least one task the list command
    returns 0 and prints the number of tasks and, in its last lines, the
    numbers of enabled and of disabled tasks, which add up to the number
    of tasks. *)
Theorem list_command_counts (cfg : config) (tasks : list task)
    (croniter : option (string → option string)) :
  c_tasks cfg = Some tasks → tasks ≠ [] →
  let r := Manage.cmd_list (Some cfg) croniter in
  let enabled := Manage.enabled_count tasks in
  let disabled := length tasks - enabled in
  r.1 = 0%Z
  ∧ In (Manage.Print (nl +:+ "任务总数: " +:+ pretty (length tasks) +:+ nl))
       r.2
  ∧ In (Manage.Print (nl +:+ "统计: " +:+ pretty enabled +:+ " 个启用, "
                         +:+ pretty disabled +:+ " 个禁用")) r.2
  ∧ enabled + disabled = length tasks
  ∧ enabled = length (List.filter Manage.task_enabled tasks).
Proof.
  intros Hts Hne r enabled disabled.
  destruct (cmd_list_counts cfg tasks croniter Hts Hne) as (H0 & H1 & H2).
  split; [exact H0|]. split; [exact H1|]. split; [exact H2|].
  assert (Hen : enabled = length (List.filter Manage.task_enabled tasks)).
  { unfold enabled, Manage.enabled_count. clear.
    induction tasks as [|t tasks IH]; [done|].
    rewrite filter_cons. cbn [List.filter].
    destruct (Manage.task_enabled t).
    - rewrite decide_True by done. cbn [length]. by rewrite IH.
    - rewrite decide_False by done. exact IH. }
  split; [|exact Hen].
  pose proof (List.filter_length_le Manage.task_enabled tasks).
  unfold disabled. rewrite Hen. lia.
Qed.

Lemma list_command_counts_demo :
  In (Manage.Print (nl +:+ "统计: 2 个启用, 1 个禁用"))
     (Manage.cmd_list (Some three_tasks) None).2.
Proof.
  apply (list_command_counts three_tasks
           [lost_task; disabled_task; demo_task] None);
    [reflexivity | discriminate].
Defined.
